(** * A PDF viewer built on a GUI toolkit: shallow embedding and properties

    The development follows the two programs of the repository,
    [pdf_viewer.py] and [tidy.py].  The code is orchestration over a GUI
    toolkit, so the embedding keeps three things explicit:

    - the Python values the code computes with (strings, integers, floats,
      parsed JSON);
    - the file system the preferences are read from and written to;
    - the toolkit objects the code drives (model indexes, the document, the
      page navigator, the stacked layout, the window), each reduced to the
      state the code reads back, together with a log of the calls made.

    Text is [string]; a character stands for a code point below 256. *)

From Stdlib Require Import ZArith Ascii String List Bool Lia.
From Stdlib Require Import Floats.PrimFloat.
From stdpp Require Import base option list strings pretty gmap.

Local Open Scope Z_scope.

(* ================================================================== *)
(** * Python strings *)

Module PyStr.

(** [str.lower] on code points below 256: the ASCII capitals and the
    Latin-1 capitals (U+00C0..U+00DE without the multiplication sign). *)
Definition lower_char (c : ascii) : ascii :=
  let n := N_of_ascii c in
  if ((65 <=? n) && (n <=? 90))%N
     || ((192 <=? n) && (n <=? 222) && negb (n =? 215))%N
  then ascii_of_N (n + 32) else c.

Fixpoint lower (s : string) : string :=
  match s with
  | EmptyString => EmptyString
  | String c s' => String (lower_char c) (lower s')
  end.

(** [s[n:]] for [0 <= n]. *)
Fixpoint drop (n : nat) (s : string) : string :=
  match n, s with
  | O, _ => s
  | S n', String _ s' => drop n' s'
  | S _, EmptyString => EmptyString
  end.

(** [s.endswith(suffix)]. *)
Definition endswith (s suffix : string) : bool :=
  let n := String.length s in
  let k := String.length suffix in
  (k <=? n)%nat && String.eqb (drop (n - k) s) suffix.

(** [c.isspace()] on code points below 256. *)
Definition isspace (c : ascii) : bool :=
  let n := N_of_ascii c in
  (((9 <=? n) && (n <=? 13)) || ((28 <=? n) && (n <=? 32))
   || (n =? 133) || (n =? 160))%N.

Fixpoint lstrip (s : string) : string :=
  match s with
  | EmptyString => EmptyString
  | String c s' => if isspace c then lstrip s' else s
  end.

Fixpoint rstrip (s : string) : string :=
  match s with
  | EmptyString => EmptyString
  | String c s' =>
      match rstrip s' with
      | EmptyString => if isspace c then EmptyString else String c EmptyString
      | r => String c r
      end
  end.

(** [s.strip()]. *)
Definition strip (s : string) : string := rstrip (lstrip s).

(** The line boundaries of [str.splitlines] below 256, the pair CR LF
    apart: LF, VT, FF, CR, FS, GS, RS, NEL. *)
Definition is_linebreak (c : ascii) : bool :=
  let n := N_of_ascii c in
  (((10 <=? n) && (n <=? 13)) || ((28 <=? n) && (n <=? 30)) || (n =? 133))%N.

(** [cur] holds the characters of the line being read, last one first. *)
Fixpoint splitlines_go (cur : string) (s : string) : list string :=
  match s with
  | EmptyString =>
      match cur with EmptyString => [] | _ => [String.rev cur] end
  | String c s' =>
      if is_linebreak c then
        match c, s' with
        | "013"%char, String "010"%char s'' =>
            String.rev cur :: splitlines_go EmptyString s''
        | _, _ => String.rev cur :: splitlines_go EmptyString s'
        end
      else splitlines_go (String c cur) s'
  end.

(** [s.splitlines()]. *)
Definition splitlines (s : string) : list string :=
  splitlines_go EmptyString s.

(** [sep.join(items)]. *)
Fixpoint join (sep : string) (items : list string) : string :=
  match items with
  | [] => EmptyString
  | [x] => x
  | x :: rest => x +:+ sep +:+ join sep rest
  end.

(** [posixpath.basename]: what follows the last slash. *)
Fixpoint basename_go (cur : string) (p : string) : string :=
  match p with
  | EmptyString => String.rev cur
  | String c p' =>
      if Ascii.eqb c "/"%char then basename_go EmptyString p'
      else basename_go (String c cur) p'
  end.

Definition basename (p : string) : string := basename_go EmptyString p.

(** Truth value of a string: non-empty. *)
Definition truthy (s : string) : bool :=
  match s with EmptyString => false | _ => true end.

(** [s.startswith(prefix)]. *)
Fixpoint startswith (s prefix : string) : bool :=
  match prefix, s with
  | EmptyString, _ => true
  | String a prefix', String b s' => Ascii.eqb a b && startswith s' prefix'
  | String _ _, EmptyString => false
  end.

(** [sub in s]: [sub] starts at some position of [s]. *)
Fixpoint contains (s sub : string) : bool :=
  startswith s sub
  || match s with
     | EmptyString => false
     | String _ s' => contains s' sub
     end.

(** The characters of [s], as iterating over it yields them. *)
Fixpoint chars (s : string) : list string :=
  match s with
  | EmptyString => []
  | String c s' => String c EmptyString :: chars s'
  end.

(** What reading in text mode makes of the characters of a file: the
    pair CR LF and a CR alone become LF. *)
Fixpoint universal_newlines (s : string) : string :=
  match s with
  | EmptyString => EmptyString
  | String c s' =>
      match c, s' with
      | "013"%char, String "010"%char s'' =>
          String "010" (universal_newlines s'')
      | "013"%char, _ => String "010" (universal_newlines s')
      | _, _ => String c (universal_newlines s')
      end
  end.

End PyStr.

(* ================================================================== *)
(** * The message filter *)

(** [QtMsgType] *)
Inductive QtMsgType :=
| QtDebugMsg | QtWarningMsg | QtCriticalMsg | QtFatalMsg | QtInfoMsg.

Definition QtMsgType_eqb (a b : QtMsgType) : bool :=
  match a, b with
  | QtDebugMsg, QtDebugMsg | QtWarningMsg, QtWarningMsg
  | QtCriticalMsg, QtCriticalMsg | QtFatalMsg, QtFatalMsg
  | QtInfoMsg, QtInfoMsg => true
  | _, _ => false
  end.

(** [qt_message_filter(msg_type, context, message)]: [stderr] is what was
    written to the stream so far, one entry per [write]. *)
Definition qt_message_filter (msg_type : QtMsgType) (message : string)
    (stderr : list string) : list string :=
  if QtMsgType_eqb msg_type QtWarningMsg
     && PyStr.contains message "bookmark with invalid location"
  then stderr
  else stderr ++ [message +:+ String "010" EmptyString].

(* ================================================================== *)
(** * Exceptions and effects *)

(** The exception classes the modelled code can meet. *)
Inductive exn :=
| FileNotFoundError
| IsADirectoryError
| JSONDecodeError
| AttributeError
| TypeError
| ValueError
| OverflowError.

Inductive result (A : Type) :=
| Ok (a : A)
| Raise (e : exn).
Arguments Ok {A} a.
Arguments Raise {A} e.

(** A computation on a mutable object of type [S] that may raise.  What
    was written to the object before the exception stays written. *)
Definition M (S A : Type) : Type := S -> result A * S.

Definition ret {S A} (a : A) : M S A := fun s => (Ok a, s).

Definition bind {S A B} (m : M S A) (k : A -> M S B) : M S B :=
  fun s => match m s with
           | (Ok a, s') => k a s'
           | (Raise e, s') => (Raise e, s')
           end.

Definition raise {S A} (e : exn) : M S A := fun s => (Raise e, s).

Definition lift {S A} (r : result A) : M S A := fun s => (r, s).

Definition gets {S A} (f : S -> A) : M S A := fun s => (Ok (f s), s).

Definition modify {S} (f : S -> S) : M S unit := fun s => (Ok tt, f s).

(** [try: body except Exception as e: handler]. *)
Definition try_except {S A} (body : M S A) (handler : exn -> M S A) : M S A :=
  fun s => match body s with
           | (Ok a, s') => (Ok a, s')
           | (Raise e, s') => handler e s'
           end.

Declare Scope py_scope.
Delimit Scope py_scope with py.
Notation "'let*' x := m 'in' k" := (bind m (fun x => k))
  (at level 10, x pattern, m at level 100, k at level 200) : py_scope.
Notation "m ;; k" := (bind m (fun _ => k))
  (at level 100, k at level 200, right associativity) : py_scope.

(* ================================================================== *)
(** * The file system *)

(** A path names a directory or a text file.  Paths are compared as
    written; the text of a file is the text [write_text] was given. *)
Inductive node :=
| Dir
| File (text : string).

Module Path.

(** [Path(p).exists()] *)
Definition exists_ (disk : gmap string node) (p : string) : bool :=
  match disk !! p with Some _ => true | None => false end.

(** [Path(p).is_dir()] *)
Definition is_dir (disk : gmap string node) (p : string) : bool :=
  match disk !! p with Some Dir => true | _ => false end.

(** [Path(p).read_text(encoding="utf-8")]: the text of the file, read
    in text mode. *)
Definition read_text (disk : gmap string node) (p : string) : result string :=
  match disk !! p with
  | None => Raise FileNotFoundError
  | Some Dir => Raise IsADirectoryError
  | Some (File text) => Ok (PyStr.universal_newlines text)
  end.

(** [Path(p).write_text(text, encoding="utf-8")] *)
Definition write_text (disk : gmap string node) (p : string) (text : string)
  : result (gmap string node) :=
  match disk !! p with
  | Some Dir => Raise IsADirectoryError
  | _ => Ok (<[p := File text]> disk)
  end.

End Path.

(* ================================================================== *)
(** * Ordering helpers: [min], [max] and [clamp] *)

(** The [<] of the Python values the code compares. *)
Class PyLt (A : Type) := py_lt : A -> A -> bool.
Global Instance PyLt_int : PyLt Z := Z.ltb.
Global Instance PyLt_float : PyLt float := PrimFloat.ltb.

(** [min(a, b)]: the first argument unless the second is smaller. *)
Definition py_min `{PyLt A} (a b : A) : A := if py_lt b a then b else a.

(** [max(a, b)]: the first argument unless the second is greater. *)
Definition py_max `{PyLt A} (a b : A) : A := if py_lt a b then b else a.

Definition clamp `{PyLt A} (v lo hi : A) : A := py_max lo (py_min hi v).

(* ================================================================== *)
(** * Parsed JSON *)

Local Set Warnings "-register-all".

(** What [json.loads] returns: [None], [bool], [int], [float], [str],
    [list], and [dict] with its keys in insertion order. *)
Inductive json :=
| JNull
| JBool (b : bool)
| JInt (n : Z)
| JFloat (f : float)
| JString (s : string)
| JList (items : list json)
| JObject (fields : list (string * json)).

Module Json.

(** The truth value of a parsed value, as [if v:] tests it. *)
Definition truthy (v : json) : bool :=
  match v with
  | JNull => false
  | JBool b => b
  | JInt n => negb (n =? 0)
  | JFloat f => negb (PrimFloat.eqb f PrimFloat.zero)
  | JString s => PyStr.truthy s
  | JList items => match items with [] => false | _ => true end
  | JObject fields => match fields with [] => false | _ => true end
  end.

(** [len(v)] *)
Definition len (v : json) : result Z :=
  match v with
  | JString s => Ok (Z.of_nat (String.length s))
  | JList items => Ok (Z.of_nat (length items))
  | JObject fields => Ok (Z.of_nat (length fields))
  | _ => Raise TypeError
  end.

Fixpoint chars (s : string) : list json :=
  match s with
  | EmptyString => []
  | String c s' => JString (String c EmptyString) :: chars s'
  end.

(** What iterating over [v] yields: the items of a list, the characters
    of a string, the keys of a dict. *)
Definition iter (v : json) : result (list json) :=
  match v with
  | JString s => Ok (chars s)
  | JList items => Ok items
  | JObject fields => Ok (map (fun kv => JString (fst kv)) fields)
  | _ => Raise TypeError
  end.

Fixpoint assoc (key : string) (fields : list (string * json)) : option json :=
  match fields with
  | [] => None
  | (k, v) :: rest => if String.eqb k key then Some v else assoc key rest
  end.

(** [data.get(key, default)]: only a dict has the method. *)
Definition get (data : json) (key : string) (default : json) : result json :=
  match data with
  | JObject fields =>
      Ok (match assoc key fields with Some v => v | None => default end)
  | _ => Raise AttributeError
  end.

End Json.

(* ================================================================== *)
(** * The toolkit objects *)

(** ** The file-system item model

    An entry of [QFileSystemModel] with the rows below it.  A model index
    is an entry, or invalid; the invalid index is also the parent of the
    top-level rows. *)
Inductive entry :=
| Entry (name : string) (dir : bool) (rows : list entry).

Definition QModelIndex := option entry.

Module QFileSystemModel.

Definition rows_under (top : list entry) (parent : QModelIndex) : list entry :=
  match parent with
  | None => top
  | Some (Entry _ _ rows) => rows
  end.

(** [model.index(row, 0, parent)] *)
Definition index (top : list entry) (row : Z) (parent : QModelIndex)
  : QModelIndex :=
  if row <? 0 then None
  else rows_under top parent !! Z.to_nat row.

Definition isValid (i : QModelIndex) : bool :=
  match i with Some _ => true | None => false end.

(** [model.isDir(index)]; the invalid index stands for the root. *)
Definition isDir (i : QModelIndex) : bool :=
  match i with Some (Entry _ d _) => d | None => true end.

(** [model.fileName(index)] *)
Definition fileName (i : QModelIndex) : string :=
  match i with Some (Entry n _ _) => n | None => EmptyString end.

End QFileSystemModel.

(** ** [PdfFilterProxyModel], the same in both programs *)
Module PdfFilterProxyModel.

Definition filterAcceptsRow (model : list entry)
    (source_row : Z) (source_parent : QModelIndex) : bool :=
  let index := QFileSystemModel.index model source_row source_parent in
  if negb (QFileSystemModel.isValid index) then false
  else if QFileSystemModel.isDir index then true
  else PyStr.endswith (PyStr.lower (QFileSystemModel.fileName index)) ".pdf".

(** The rows the tree view is left with under [parent]. *)
Definition shown_rows (model : list entry) (parent : QModelIndex) : list entry :=
  let rows := QFileSystemModel.rows_under model parent in
  omap (fun r => if filterAcceptsRow model (Z.of_nat r) parent
                 then rows !! r else None)
       (seq 0 (length rows)).

(** [lessThan(left, right)]; [super_lessThan] is the comparison of
    [QSortFilterProxyModel] that the method falls back on. *)
Definition lessThan (super_lessThan : QModelIndex -> QModelIndex -> bool)
    (left right : QModelIndex) : bool :=
  let left_is_dir := QFileSystemModel.isDir left in
  let right_is_dir := QFileSystemModel.isDir right in
  if xorb left_is_dir right_is_dir then left_is_dir
  else super_lessThan left right.

End PdfFilterProxyModel.

(** ** Document, view and navigator *)

(** [QPdfDocument.Status] *)
Inductive Status := Null | Loading | Ready | Unloading | Error.

Definition Status_eqb (a b : Status) : bool :=
  match a, b with
  | Null, Null | Loading, Loading | Ready, Ready
  | Unloading, Unloading | Error, Error => true
  | _, _ => false
  end.

(** [QPdfView.ZoomMode] *)
Inductive ZoomMode := Custom | FitToWidth | FitInView.

(** What the program takes from its platform: the data directory and the
    home directory, the [json] codec, and what the PDF library makes of a
    file (the status and the page count the document reports after
    [load]). *)
Class Platform := {
  app_data_dir : string;
  home : string;
  json_loads : string -> result json;
  json_dumps : json -> string;
  QPdfDocument_load : string -> Status * Z
}.

Definition FAVORITES_FILE `{Platform} : string := app_data_dir +:+ "/favorites.txt".
Definition LAST_ROOT_FILE `{Platform} : string := app_data_dir +:+ "/last_root.txt".
Definition WINDOW_STATE_FILE `{Platform} : string := app_data_dir +:+ "/window_state.json".

(** The toolkit calls and signal emissions of the centre view, in the
    order they are made. *)
Inductive view_event :=
| DocClose
| DocLoad (file_path : string)
| OverlayClear
| OverlaySetText (text : string)
| StackSetCurrentIndex (i : Z)
| NavJump (page : Z)
| SetZoomMode (m : ZoomMode)
| SetZoomFactor (f : float)
| EmitPageChanged (page : Z)
| EmitDocumentLoaded.

(** ** [CenterPdfView] *)
Module CenterPdfView.

(** The state the widget reads back from its children, and the trace of
    what it asked of them. *)
Record t := mk {
  doc_status : Status;
  doc_pageCount : Z;
  overlay_text : string;
  stack_index : Z;
  nav_page : Z;
  zoom_mode : ZoomMode;
  zoom_factor : float;
  trace : list view_event
}.

Definition log (e : view_event) (self : t) : t :=
  mk (doc_status self) (doc_pageCount self) (overlay_text self)
     (stack_index self) (nav_page self) (zoom_mode self) (zoom_factor self)
     (trace self ++ [e]).

(** [self.doc.close()] *)
Definition doc_close (self : t) : t :=
  log DocClose
    (mk Null 0 (overlay_text self) (stack_index self) (nav_page self)
        (zoom_mode self) (zoom_factor self) (trace self)).

(** [self.doc.load(file_path)] *)
Definition doc_load `{Platform} (file_path : string) (self : t) : t :=
  let '(st, n) := QPdfDocument_load file_path in
  log (DocLoad file_path)
    (mk st n (overlay_text self) (stack_index self) (nav_page self)
        (zoom_mode self) (zoom_factor self) (trace self)).

Definition overlay_setText (text : string) (self : t) : t :=
  log (OverlaySetText text)
    (mk (doc_status self) (doc_pageCount self) text (stack_index self)
        (nav_page self) (zoom_mode self) (zoom_factor self) (trace self)).

(** [self.overlay.clear()] *)
Definition overlay_clear (self : t) : t :=
  log OverlayClear
    (mk (doc_status self) (doc_pageCount self) EmptyString (stack_index self)
        (nav_page self) (zoom_mode self) (zoom_factor self) (trace self)).

Definition stack_setCurrentIndex (i : Z) (self : t) : t :=
  log (StackSetCurrentIndex i)
    (mk (doc_status self) (doc_pageCount self) (overlay_text self) i
        (nav_page self) (zoom_mode self) (zoom_factor self) (trace self)).

(** [self.view.pageNavigator().jump(page, QPointF(), 0.0)] *)
Definition nav_jump (page : Z) (self : t) : t :=
  log (NavJump page)
    (mk (doc_status self) (doc_pageCount self) (overlay_text self)
        (stack_index self) page (zoom_mode self) (zoom_factor self)
        (trace self)).

Definition view_setZoomMode (m : ZoomMode) (self : t) : t :=
  log (SetZoomMode m)
    (mk (doc_status self) (doc_pageCount self) (overlay_text self)
        (stack_index self) (nav_page self) m (zoom_factor self) (trace self)).

Definition view_setZoomFactor (f : float) (self : t) : t :=
  log (SetZoomFactor f)
    (mk (doc_status self) (doc_pageCount self) (overlay_text self)
        (stack_index self) (nav_page self) (zoom_mode self) f (trace self)).

Definition show_overlay (text : string) (self : t) : t :=
  stack_setCurrentIndex 1 (overlay_setText text self).

Definition hide_overlay (self : t) : t :=
  stack_setCurrentIndex 0 self.

Definition page_count (self : t) : Z := doc_pageCount self.

Definition current_page (self : t) : Z := nav_page self.

Definition _emit_current_page (self : t) : t :=
  let current := nav_page self in
  log (EmitPageChanged current) self.

(** The widget as [__init__] leaves it: no document, the view in
    [Custom] zoom at [zoom0], the overlay shown. *)
Definition __init__ (zoom0 : float) : t :=
  show_overlay "No document loaded."
    (view_setZoomMode Custom (mk Null 0 EmptyString 0 0 Custom zoom0 [])).

(** The text of the error overlay for [name]. *)
Definition not_readable (name : string) : string :=
  name +:+ String "010" (String "010" "Not readable or empty.").

Definition load_file `{Platform} (file_path : string) (self : t) : bool * t :=
  let self := doc_close self in
  let self := overlay_clear self in
  let self := doc_load file_path self in
  let st := doc_status self in
  let page_count := doc_pageCount self in
  if negb (Status_eqb st Ready) || (page_count =? 0) then
    let name := PyStr.basename file_path in
    (false, show_overlay (not_readable name) self)
  else
    let self := hide_overlay self in
    let self := nav_jump 0 self in
    let self := log EmitDocumentLoaded self in
    let self := _emit_current_page self in
    (true, self).

Definition go_to_page (page_zero_based : Z) (self : t) : t :=
  let page := clamp page_zero_based 0 (py_max 0 (page_count self - 1)) in
  nav_jump page self.

Definition next_page (self : t) : t := go_to_page (current_page self + 1) self.

Definition prev_page (self : t) : t := go_to_page (current_page self - 1) self.

(** The float literals [0.05] and [6.0]. *)
Definition zoom_min : float := 0x1.999999999999ap-5%float.
Definition zoom_max : float := 6%float.

Definition set_zoom_factor (f : float) (self : t) : t :=
  view_setZoomFactor (clamp f zoom_min zoom_max) self.

Definition fit_width (self : t) : t := view_setZoomMode FitToWidth self.

Definition fit_height (self : t) : t := view_setZoomMode FitInView self.

Definition custom_zoom (self : t) : t := view_setZoomMode Custom self.

End CenterPdfView.

(* ================================================================== *)
(** * Objects that reach the disk *)

(** An object whose methods read and write the file system carries it. *)
Class HasDisk (S : Type) := {
  the_disk : S -> gmap string node;
  with_disk : gmap string node -> S -> S
}.

Section disk_access.
Context {S : Type} `{HasDisk S}.

Definition path_exists (p : string) : M S bool :=
  gets (fun s => Path.exists_ (the_disk s) p).

Definition path_is_dir (p : string) : M S bool :=
  gets (fun s => Path.is_dir (the_disk s) p).

Definition read_text (p : string) : M S string :=
  fun s => (Path.read_text (the_disk s) p, s).

Definition write_text (p : string) (text : string) : M S unit :=
  fun s => match Path.write_text (the_disk s) p text with
           | Ok d => (Ok tt, with_disk d s)
           | Raise e => (Raise e, s)
           end.

(** [for x in xs: body(x)] *)
Fixpoint for_each {A} (xs : list A) (body : A -> M S unit) : M S unit :=
  match xs with
  | [] => ret tt
  | x :: rest => (body x ;; for_each rest body)%py
  end.
End disk_access.

Definition newline : string := String "010" EmptyString.

(* ================================================================== *)
(** * [FilesPanel]: the file browser and the favorites list *)

Module FilesPanel.

Record t := mk {
  disk : gmap string node;
  browser_root : string;          (* the root the explorer widget shows *)
  fav_list : list string;         (* the texts of the list items, by row *)
  fileActivated : list string;    (* emissions of the signal *)
  warnings : list exn             (* message boxes shown *)
}.

Global Instance has_disk : HasDisk t := {|
  the_disk := disk;
  with_disk d self :=
    mk d (browser_root self) (fav_list self) (fileActivated self) (warnings self)
|}.

Definition set_browser_root (r : string) (self : t) : t :=
  mk (disk self) r (fav_list self) (fileActivated self) (warnings self).

Definition set_fav_list (l : list string) (self : t) : t :=
  mk (disk self) (browser_root self) l (fileActivated self) (warnings self).

Definition emit_fileActivated (p : string) (self : t) : t :=
  mk (disk self) (browser_root self) (fav_list self)
     (fileActivated self ++ [p]) (warnings self).

(** [QMessageBox.warning(...)] *)
Definition warn (e : exn) (self : t) : t :=
  mk (disk self) (browser_root self) (fav_list self) (fileActivated self)
     (warnings self ++ [e]).

(** [self.fav_list.addItem(text)] *)
Definition addItem (text : string) (self : t) : t :=
  set_fav_list (fav_list self ++ [text]) self.

(** [self.fav_list.takeItem(row)] *)
Definition takeItem (row : Z) (self : t) : t :=
  if row <? 0 then self
  else set_fav_list (delete (Z.to_nat row) (fav_list self)) self.

Section methods.
Context `{Platform}.
Local Open Scope py_scope.

Definition _favorites_path : string := FAVORITES_FILE.

Definition _last_root_path : string := LAST_ROOT_FILE.

(** [PdfExplorerWidget.setRootPath] on [self.browser], with the update
    of the tree's root index that follows it. *)
Definition browser_setRootPath (root_path : string) : M t unit :=
  let* found := path_exists root_path in
  if negb found then raise FileNotFoundError
  else modify (set_browser_root root_path).

(** [PdfExplorerWidget(root_path, self)] *)
Definition browser_init (root_path : string) : M t unit :=
  let* found := path_exists root_path in
  if negb found then raise FileNotFoundError
  else browser_setRootPath root_path.

Definition _load_favorites : M t unit :=
  modify (set_fav_list []) ;;
  let p := _favorites_path in
  let* found := path_exists p in
  if found then
    let* text := read_text p in
    for_each (PyStr.splitlines text) (fun line =>
      let line := PyStr.strip line in
      if PyStr.truthy line then
        let* there := path_exists line in
        if there then modify (addItem line) else ret tt
      else ret tt)
  else ret tt.

Definition _save_favorites : M t unit :=
  let* items := gets fav_list in
  write_text _favorites_path (PyStr.join newline items).

Definition _load_last_root : M t (option string) :=
  let p := _last_root_path in
  let* found := path_exists p in
  if found then
    let* text := read_text p in
    let root := PyStr.strip text in
    if PyStr.truthy root then
      let* there := path_exists root in
      if there then ret (Some root) else ret None
    else ret None
  else ret None.

Definition _save_last_root (root : string) : M t unit :=
  write_text _last_root_path root.

(** [self._load_last_root() or str(Path.home())] *)
Definition start_root : M t string :=
  let* r := _load_last_root in
  ret (match r with
       | Some root => if PyStr.truthy root then root else home
       | None => home
       end).

(** [__init__] up to the construction of the browser. *)
Definition init_browser : M t unit :=
  let* root := start_root in
  browser_init root.

(** The part of [__init__] that reads the preferences. *)
Definition __init__ : M t unit :=
  init_browser ;;
  modify (set_fav_list []) ;;
  _load_favorites.

(** The object before [__init__] runs, on the disk [d]. *)
Definition blank (d : gmap string node) : t := mk d EmptyString [] [] [].

(** The scan of [_add_favorite] for an item with the text [folder]. *)
Fixpoint has_item (folder : string) (items : list string) : bool :=
  match items with
  | [] => false
  | text :: rest => if String.eqb text folder then true else has_item folder rest
  end.

(** [folder] is the answer of the directory dialog, empty when the
    dialog is cancelled. *)
Definition _add_favorite (folder : string) : M t unit :=
  if PyStr.truthy folder then
    let* items := gets fav_list in
    if has_item folder items then ret tt
    else (modify (addItem folder) ;; _save_favorites)
  else ret tt.

(** [row] is the current row of the list, [-1] when there is none. *)
Definition _remove_selected_favorite (row : Z) : M t unit :=
  if 0 <=? row then (modify (takeItem row) ;; _save_favorites) else ret tt.

(** The [try] block that [_activate_favorite] and [_on_double_clicked]
    both run to move the browser to [folder]; [rootChanged] is what
    the signal of that name is connected to. *)
Definition change_root (rootChanged : string -> M t unit) (folder : string)
  : M t unit :=
  try_except
    (browser_setRootPath folder ;;
     _save_last_root folder ;;
     rootChanged folder)
    (fun e => modify (warn e)).

Definition _activate_favorite (rootChanged : string -> M t unit)
    (item : string) : M t unit :=
  let folder := item in
  let* found := path_exists folder in
  if found then change_root rootChanged folder else ret tt.

Definition _on_double_clicked (rootChanged : string -> M t unit)
    (path : string) : M t unit :=
  let* found := path_exists path in
  if PyStr.truthy path && PyStr.endswith (PyStr.lower path) ".pdf" && found
  then modify (emit_fileActivated path)
  else
    let* d := path_is_dir path in
    if d then change_root rootChanged path else ret tt.

End methods.
End FilesPanel.

(* ================================================================== *)
(** * [TocPanel] and [RightToolbar] *)

(** [QPointF]; [QPointF()] is the origin. *)
Definition QPointF : Type := float * float.
Definition QPointF_origin : QPointF := (0%float, 0%float).

Module TocPanel.

(** A link target as the bookmark model hands it out; each of its
    accessors may raise. *)
Record Destination := mk_dest {
  page : result Z;
  location : result QPointF;
  zoom : result float
}.

(** What the activated index answers for the two roles the slot asks
    for.  The Destination role raises [AttributeError] where the toolkit
    no longer has it, and answers [None] where the entry has no target. *)
Record bookmark_index := mk_index {
  data_Destination : result (option Destination);
  data_Page : json
}.

(** The state is the list of [jumpToDestination] emissions so far. *)
Definition emit (page : Z) (point : QPointF) (zoom : float)
  : M (list (Z * QPointF * float)) unit :=
  modify (fun emitted => emitted ++ [(page, point, zoom)]).

Definition _activated (idx : bookmark_index) : M (list (Z * QPointF * float)) unit :=
  (let* dest := match data_Destination idx with
                | Raise AttributeError => ret None
                | r => lift r
                end in
   let* returned :=
     match dest with
     | Some dest =>
         try_except
           (let* page := lift (page dest) in
            let* point := lift (location dest) in
            let* zoom := lift (zoom dest) in
            if 0 <=? page then (emit page point zoom ;; ret true) else ret false)
           (fun _ => ret false)
     | None => ret false
     end in
   if returned then ret tt
   else
     match data_Page idx with
     | JInt page =>
         if 0 <=? page then emit page QPointF_origin 0%float else ret tt
     | JBool b => emit (if b then 1 else 0) QPointF_origin 0%float
     | _ => ret tt
     end)%py.

End TocPanel.

Module RightToolbar.

Record t := mk {
  _page_total : Z;
  _current_page : Z;
  page_label : string               (* the text of the label *)
}.

Definition quoted (v : string) : string :=
  String "034" (v +:+ String "034" EmptyString).

(** [str(n)] *)
Definition str (n : Z) : string := pretty n.

Definition vertical_digits (n : Z) : string :=
  if n <=? 0 then "-"
  else PyStr.join "<br>" (PyStr.chars (str n)).

(** The markup around the two numbers. *)
Definition markup (cur total : string) : string :=
  "<div style=" +:+ quoted "text-align:center; line-height:1;"
  +:+ "><div>" +:+ cur +:+ "</div><hr style="
  +:+ quoted "width:20px; margin:0; border:1px solid black;"
  +:+ "><div>" +:+ total +:+ "</div></div>".

Definition _update_label (self : t) : t :=
  let html :=
    if _page_total self <=? 0 then markup "-" "-"
    else
      let cur := vertical_digits (_current_page self + 1) in
      let total := vertical_digits (_page_total self) in
      markup cur total in
  mk (_page_total self) (_current_page self) html.

Definition __init__ : t := _update_label (mk 0 0 EmptyString).

Definition set_total_pages (n : Z) (self : t) : t :=
  _update_label (mk (py_max 0 n) (_current_page self) (page_label self)).

Definition set_current_page (page_zero_based : Z) (self : t) : t :=
  _update_label (mk (_page_total self) (py_max 0 page_zero_based) (page_label self)).

End RightToolbar.

(* ================================================================== *)
(** * [MainWindow] *)

(** The calls made on the window, in order. *)
Inductive window_event :=
| SetGeometry (x y w h : Z)
| ShowNormal
| ShowMaximized
| SuperCloseEvent.

(** Keys [keyPressEvent] tells apart. *)
Inductive Key := Key_Plus | Key_Equal | Key_Minus | Key_other.

Module QWidget.

(** How the binding passes a Python value for a C [int] parameter:
    [int] (and [bool], a subclass of it) within range, nothing else. *)
Definition as_int (v : json) : result Z :=
  match v with
  | JInt n =>
      if (- 2 ^ 31 <=? n) && (n <? 2 ^ 31) then Ok n else Raise OverflowError
  | JBool b => Ok (if b then 1 else 0)
  | _ => Raise TypeError
  end.

End QWidget.

Module MainWindow.

(** The window: its geometry when shown normal, the geometry it takes
    when maximized, and which of the two it is in. *)
Record t := mk {
  disk : gmap string node;
  normal_geometry : Z * Z * Z * Z;
  maximized_geometry : Z * Z * Z * Z;
  maximized : bool;
  trace : list window_event;
  printed : list exn                (* messages printed on failure *)
}.

Global Instance has_disk : HasDisk t := {|
  the_disk := disk;
  with_disk d self :=
    mk d (normal_geometry self) (maximized_geometry self) (maximized self)
       (trace self) (printed self)
|}.

Definition log (e : window_event) (self : t) : t :=
  mk (disk self) (normal_geometry self) (maximized_geometry self)
     (maximized self) (trace self ++ [e]) (printed self).

Definition print (e : exn) (self : t) : t :=
  mk (disk self) (normal_geometry self) (maximized_geometry self)
     (maximized self) (trace self) (printed self ++ [e]).

Definition showMaximized (self : t) : t :=
  log ShowMaximized
    (mk (disk self) (normal_geometry self) (maximized_geometry self) true
        (trace self) (printed self)).

Definition showNormal (self : t) : t :=
  log ShowNormal
    (mk (disk self) (normal_geometry self) (maximized_geometry self) false
        (trace self) (printed self)).

Definition isMaximized (self : t) : bool := maximized self.

(** [[self.x(), self.y(), self.width(), self.height()]] *)
Definition current_geometry (self : t) : Z * Z * Z * Z :=
  if maximized self then maximized_geometry self else normal_geometry self.

(** [self.setGeometry(x, y, w, h)] *)
Definition setGeometry (x y w h : json) : M t unit :=
  (let* x := lift (QWidget.as_int x) in
   let* y := lift (QWidget.as_int y) in
   let* w := lift (QWidget.as_int w) in
   let* h := lift (QWidget.as_int h) in
   modify (fun self =>
     log (SetGeometry x y w h)
       (mk (disk self) (x, y, w, h) (maximized_geometry self)
           (maximized self) (trace self) (printed self))))%py.

Definition geometry_json (g : Z * Z * Z * Z) : json :=
  let '(x, y, w, h) := g in JList [JInt x; JInt y; JInt w; JInt h].

Section methods.
Context `{Platform}.
Local Open Scope py_scope.

(** [x, y, w, h = geom] followed by [self.setGeometry(x, y, w, h)] *)
Definition restore_geometry (geom : json) : M t unit :=
  let* items := lift (Json.iter geom) in
  match items with
  | [x; y; w; h] => setGeometry x y w h
  | _ => raise ValueError
  end.

Definition _load_window_settings : M t unit :=
  let* found := path_exists WINDOW_STATE_FILE in
  if negb found then modify showMaximized
  else
    try_except
      (let* text := read_text WINDOW_STATE_FILE in
       let* data := lift (json_loads text) in
       let* geom := lift (Json.get data "geometry" JNull) in
       let* is_max := lift (Json.get data "is_maximized" (JBool false)) in
       (if Json.truthy geom then
          let* n := lift (Json.len geom) in
          if n =? 4 then restore_geometry geom else ret tt
        else ret tt) ;;
       if Json.truthy is_max then modify showMaximized
       else modify showNormal)
      (fun e => modify (print e) ;; modify showMaximized).

Definition _save_window_settings : M t unit :=
  try_except
    (let* is_max := gets isMaximized in
     let* geom :=
       (if is_max then
          modify showNormal ;;
          let* g := gets current_geometry in
          modify showMaximized ;;
          ret (geometry_json g)
        else
          let* g := gets current_geometry in
          ret (geometry_json g)) in
     let data := JObject [("geometry", geom); ("is_maximized", JBool is_max)] in
     write_text WINDOW_STATE_FILE (json_dumps data))
    (fun e => modify (print e)).

Definition closeEvent : M t unit :=
  _save_window_settings ;;
  modify (log SuperCloseEvent).

(** [_persist_root], the slot connected to [FilesPanel.rootChanged]. *)
Definition _persist_root {S} `{HasDisk S} (root : string) : M S unit :=
  try_except (write_text LAST_ROOT_FILE root) (fun _ => ret tt).

End methods.

(** The float literal [1.10]. *)
Definition zoom_step : float := 0x1.199999999999ap+0%float.

(** The zoom slots act on [self.center]. *)
Definition _zoom_in (center : CenterPdfView.t) : CenterPdfView.t :=
  let center := CenterPdfView.custom_zoom center in
  CenterPdfView.set_zoom_factor
    (PrimFloat.mul (CenterPdfView.zoom_factor center) zoom_step) center.

Definition _zoom_out (center : CenterPdfView.t) : CenterPdfView.t :=
  let center := CenterPdfView.custom_zoom center in
  CenterPdfView.set_zoom_factor
    (PrimFloat.div (CenterPdfView.zoom_factor center) zoom_step) center.

Definition _fit_width (center : CenterPdfView.t) : CenterPdfView.t :=
  CenterPdfView.fit_width center.

Definition _fit_height (center : CenterPdfView.t) : CenterPdfView.t :=
  CenterPdfView.fit_height center.

Definition keyPressEvent (key : Key) (center : CenterPdfView.t)
  : CenterPdfView.t :=
  match key with
  | Key_Plus | Key_Equal => _zoom_in center
  | Key_Minus => _zoom_out center
  | Key_other => center
  end.

(** The shortcuts Home and End. *)
Definition shortcut_Home (center : CenterPdfView.t) : CenterPdfView.t :=
  CenterPdfView.go_to_page 0 center.

Definition shortcut_End (center : CenterPdfView.t) : CenterPdfView.t :=
  CenterPdfView.go_to_page (py_max 0 (CenterPdfView.page_count center - 1)) center.

(** The slot connected to [TocPanel.jumpToDestination]. *)
Definition on_jumpToDestination (jump : Z * QPointF * float)
    (center : CenterPdfView.t) : CenterPdfView.t :=
  let '(page, point, zoom) := jump in CenterPdfView.nav_jump page center.

(** An activation of a bookmark, with the jumps it emits delivered. *)
Definition toc_activated (idx : TocPanel.bookmark_index)
    (center : CenterPdfView.t) : result unit * CenterPdfView.t :=
  let '(r, jumps) := TocPanel._activated idx [] in
  (r, fold_left (fun c jump => on_jumpToDestination jump c) jumps center).

(** The widgets [open_pdf] and the slots of the centre view's signals
    work on. *)
Record ui := mk_ui {
  center : CenterPdfView.t;
  tools : RightToolbar.t;
  toc_tab_color : string
}.

Definition _update_toc_tab_color (has_toc : bool) (u : ui) : ui :=
  let color := if has_toc then "#2e7d32" else "#777777" in
  mk_ui (center u) (tools u) color.

Definition _sync_total_pages (u : ui) : ui :=
  mk_ui (center u)
    (RightToolbar.set_total_pages (CenterPdfView.page_count (center u)) (tools u))
    (toc_tab_color u).

Definition _sync_current_page (page_zero_based : Z) (u : ui) : ui :=
  mk_ui (center u)
    (RightToolbar.set_current_page page_zero_based (tools u))
    (toc_tab_color u).

Definition _after_document_loaded (u : ui) : ui :=
  let u := _sync_total_pages u in
  _sync_current_page (CenterPdfView.current_page (center u)) u.

(** The slot, if any, that an emission of the centre view runs. *)
Definition deliver (e : view_event) (u : ui) : ui :=
  match e with
  | EmitDocumentLoaded => _after_document_loaded u
  | EmitPageChanged page => _sync_current_page page u
  | _ => u
  end.

(** [open_pdf(path)]: [dialog] is the answer of the file dialog (empty
    when cancelled), asked only when [path] is empty; [bookmark_rows] is
    the row count of the bookmark model once it has the document.  The
    slots run on what [load_file] emitted; they read the page count and
    the current page, which [load_file] leaves alone once it has begun to
    emit. *)
Definition open_pdf `{Platform} (dialog : string) (bookmark_rows : Z)
    (path : string) (u : ui) : ui :=
  let path := if PyStr.truthy path then path else dialog in
  if negb (PyStr.truthy path) then u
  else
    let before := length (CenterPdfView.trace (center u)) in
    let '(ok, c) := CenterPdfView.load_file path (center u) in
    let u := fold_left (fun u e => deliver e u)
               (drop before (CenterPdfView.trace c))
               (mk_ui c (tools u) (toc_tab_color u)) in
    if ok then
      _sync_total_pages (_update_toc_tab_color (0 <? bookmark_rows) u)
    else
      let u := _update_toc_tab_color false u in
      mk_ui (center u) (RightToolbar.set_total_pages 0 (tools u)) (toc_tab_color u).

End MainWindow.

(* ================================================================== *)
(** * [tidy.py] *)

Module Tidy.

Module PdfExplorerWidget.

(** The explorer with the disk it shows; [locked] are the files another
    process keeps open, which the system refuses to delete. *)
Record t := mk {
  disk : gmap string node;
  locked : gset string;
  root : string;
  warnings : list string            (* the files a message box named *)
}.

Global Instance has_disk : HasDisk t := {|
  the_disk := disk;
  with_disk d self := mk d (locked self) (root self) (warnings self)
|}.

Definition warn (file_path : string) (self : t) : t :=
  mk (disk self) (locked self) (root self) (warnings self ++ [file_path]).

(** The outcomes of [Path(p).unlink()]: done, [PermissionError] for a
    file that is locked, or another exception: [FileNotFoundError] for a
    path that is not there, and for a directory [IsADirectoryError], as
    on Linux. *)
Inductive unlinked :=
| Unlinked (d : gmap string node)
| PermissionDenied
| Failed (e : exn).

Definition unlink (locked : gset string) (d : gmap string node) (p : string)
  : unlinked :=
  match d !! p with
  | None => Failed FileNotFoundError
  | Some Dir => Failed IsADirectoryError
  | Some (File _) =>
      if bool_decide (p ∈ locked) then PermissionDenied
      else Unlinked (delete p d)
  end.

(** The paths [on_customContextMenuRequested] collects from the
    selected rows. *)
Definition selected_files (selection : list string) (self : t) : list string :=
  List.filter (fun path => negb (Path.is_dir (disk self) path)) selection.

Inductive menu_action :=
| OpenInSystemViewer (file_path : string)
| RevealInExplorer (file_path : string)
| Rename (file_path : string)
| Copy (file_paths : list string)
| Delete (file_paths : list string).

(** The entries of the context menu; [valid] tells whether there is an
    item under the pointer. *)
Definition on_customContextMenuRequested (valid : bool)
    (selection : list string) (self : t) : list menu_action :=
  if negb valid then []
  else
    let selected := selected_files selection self in
    match selected with
    | [] => []
    | _ =>
        (match selected with
         | [file] => [OpenInSystemViewer file; RevealInExplorer file; Rename file]
         | _ => []
         end) ++ [Copy selected; Delete selected]
    end.

(** [declined] tells whether the confirmation was answered with No. *)
Definition _deleteFile (declined : bool) (file_paths : list string) : M t unit :=
  if declined then ret tt
  else
    for_each file_paths (fun file_path => fun self =>
      match unlink (locked self) (disk self) file_path with
      | Unlinked d => (Ok tt, with_disk d self)
      | PermissionDenied => (Ok tt, warn file_path self)
      | Failed e => (Raise e, self)
      end).

Definition setRootPath (root_path : string) : M t unit :=
  (let* found := path_exists root_path in
   if negb found then raise FileNotFoundError
   else modify (fun self =>
          mk (disk self) (locked self) root_path (warnings self)))%py.

End PdfExplorerWidget.

Module MainWindow.

Record t := mk {
  disk : gmap string node;
  favorites : list string          (* the texts of the list items *)
}.

Global Instance has_disk : HasDisk t := {|
  the_disk := disk;
  with_disk d self := mk d (favorites self)
|}.

Definition addItem (text : string) (self : t) : t :=
  mk (disk self) (favorites self ++ [text]).

Definition _loadFavorites : M t unit :=
  (let* text := read_text "favorites.txt" in
   let rows := PyStr.splitlines text in
   for_each rows (fun row => modify (addItem row)))%py.

(** [on_favorites_itemActivated(item)], on [self.fileView]. *)
Definition on_favorites_itemActivated (item : string)
  : M PdfExplorerWidget.t unit :=
  let folder := item in
  PdfExplorerWidget.setRootPath folder.

End MainWindow.
End Tidy.

(* ================================================================== *)
(** * The claims of the specification, in its words *)

Module Spec.
Section spec.
Context `{Platform}.

(** The favorites a file with the text [text] stands for: its
    non-empty stripped lines whose paths exist, in file order. *)
Definition favorites_of_text (d : gmap string node) (text : string)
  : list string :=
  filter (fun line => line <> EmptyString /\ is_Some (d !! line))
         (PyStr.strip <$> PyStr.splitlines text).

(** The root the browser starts at: the stored path when the file
    exists and the path is non-empty and exists, the home directory
    otherwise.  The stored path is the text of the file as it is read
    in text mode, stripped. *)
Definition startup_root (d : gmap string node) : string :=
  match d !! LAST_ROOT_FILE with
  | Some (File text) =>
      let stored := PyStr.strip (PyStr.universal_newlines text) in
      if bool_decide (stored <> EmptyString /\ is_Some (d !! stored))
      then stored else home
  | _ => home
  end.

(** The record written on close. *)
Definition window_record (g : Z * Z * Z * Z) (is_max : bool) : json :=
  let '(x, y, w, h) := g in
  JObject [("geometry", JList [JInt x; JInt y; JInt w; JInt h]);
           ("is_maximized", JBool is_max)].

(** Contents of the window-state file that are invalid: text that, as
    read, does not parse, or a geometry list that is not four elements. *)
Definition invalid_window_state (text : string) : Prop :=
  (exists e, json_loads (PyStr.universal_newlines text) = Raise e)
  \/ (exists fields items,
        json_loads (PyStr.universal_newlines text) = Ok (JObject fields)
        /\ Json.assoc "geometry" fields = Some (JList items)
        /\ length items <> 4%nat).

(** The maximized flag of a parsed record, false when it is missing. *)
Definition flag_of (fields : list (string * json)) : bool :=
  match Json.assoc "is_maximized" fields with
  | Some v => Json.truthy v
  | None => false
  end.

(** The window shown maximized or normal, as [flag] says. *)
Definition show_as (flag : bool) (self : MainWindow.t) : MainWindow.t :=
  if flag then MainWindow.showMaximized self else MainWindow.showNormal self.

(** The window after [setGeometry] with the rectangle [g]. *)
Definition with_geometry (g : Z * Z * Z * Z) (self : MainWindow.t)
  : MainWindow.t :=
  let '(x, y, w, h) := g in
  MainWindow.log (SetGeometry x y w h)
    (MainWindow.mk (MainWindow.disk self) g (MainWindow.maximized_geometry self)
       (MainWindow.maximized self) (MainWindow.trace self)
       (MainWindow.printed self)).

(** The values of a C [int]. *)
Definition int_range (n : Z) : Prop := - 2 ^ 31 <= n < 2 ^ 31.

(** A string without a line boundary in it. *)
Fixpoint one_line (s : string) : bool :=
  match s with
  | EmptyString => true
  | String c s' => negb (PyStr.is_linebreak c) && one_line s'
  end.

(** A favorite that survives being saved and loaded: a non-empty path on
    one line, without white space around it, that exists on [d]. *)
Definition kept_favorite (d : gmap string node) (x : string) : Prop :=
  x <> EmptyString /\ one_line x = true /\ PyStr.strip x = x /\ is_Some (d !! x).
End spec.
End Spec.

(* ================================================================== *)
(** * A platform to run the definitions on *)

Module Sample.

Definition quote (s : string) : string :=
  String "034" (s +:+ String "034" EmptyString).

(** [json.dumps] with its default separators, on values without floats
    and without characters that need escaping; a float is not rendered. *)
Fixpoint dumps (v : json) : string :=
  match v with
  | JNull => "null"
  | JBool true => "true"
  | JBool false => "false"
  | JInt n => pretty n
  | JFloat _ => EmptyString
  | JString s => quote s
  | JList items =>
      "[" +:+ (fix go (l : list json) : string :=
                 match l with
                 | [] => EmptyString
                 | [x] => dumps x
                 | x :: r => dumps x +:+ ", " +:+ go r
                 end) items +:+ "]"
  | JObject fields =>
      "{" +:+ (fix go (l : list (string * json)) : string :=
                 match l with
                 | [] => EmptyString
                 | [(k, x)] => quote k +:+ ": " +:+ dumps x
                 | (k, x) :: r => quote k +:+ ": " +:+ dumps x +:+ ", " +:+ go r
                 end) fields +:+ "}"
  end.

(** A record with a geometry of three numbers. *)
Definition short_record : json :=
  JObject [("geometry", JList [JInt 0; JInt 0; JInt 800]);
           ("is_maximized", JBool false)].

(** A record as [_save_window_settings] writes it. *)
Definition full_record : json :=
  JObject [("geometry", JList [JInt 10; JInt 20; JInt 1280; JInt 800]);
           ("is_maximized", JBool true)].

(** [json.loads] on the texts used below. *)
Definition loads (text : string) : result json :=
  if String.eqb text (dumps short_record) then Ok short_record
  else if String.eqb text (dumps full_record) then Ok full_record
  else Raise JSONDecodeError.

Definition platform : Platform := {|
  app_data_dir := "/home/user/.local/share/FastPdfViewer";
  home := "/home/user";
  json_loads := loads;
  json_dumps := dumps;
  QPdfDocument_load p :=
    if String.eqb p "/home/user/docs/paper.pdf" then (Ready, 12) else (Error, 0)
|}.

(** A favorites file of four lines: a folder, a blank line, a folder
    that is gone, a folder with spaces around it. *)
Definition favorites_text : string :=
  "/home/user/books" +:+ newline +:+ "  " +:+ newline
  +:+ "/home/user/gone" +:+ newline +:+ " /home/user/docs " +:+ newline.

Definition disk : gmap string node :=
  <[@FAVORITES_FILE platform := File favorites_text]>
  (<[@LAST_ROOT_FILE platform := File (" /home/user/docs" +:+ newline)]>
  (<[@WINDOW_STATE_FILE platform := File (dumps full_record)]>
  (<["/home/user/docs/paper.pdf" := File "%PDF-1.7"]>
  (<["/home/user/docs" := Dir]>
  (<["/home/user/books" := Dir]>
  (<["/home/user" := Dir]> ∅)))))).

(** The same disk with the three-number record as the window state. *)
Definition disk_short : gmap string node :=
  <[@WINDOW_STATE_FILE platform := File (dumps short_record)]> disk.

Definition window (d : gmap string node) : MainWindow.t :=
  MainWindow.mk d (100, 100, 1280, 800) (0, 0, 1920, 1080) false [] [].

Definition panel : FilesPanel.t :=
  FilesPanel.mk disk "/home/user" ["/home/user/books"] [] [].

Definition center : CenterPdfView.t :=
  CenterPdfView.__init__ 1%float.

(** The disk with a directory where the last-root file should be. *)
Definition disk_blocked : gmap string node :=
  <[@LAST_ROOT_FILE platform := Dir]> disk.

Definition panel_blocked : FilesPanel.t :=
  FilesPanel.mk disk_blocked "/home/user" ["/home/user/books"] [] [].

(** A maximized window whose normal geometry is that of [full_record]. *)
Definition window_maximized : MainWindow.t :=
  MainWindow.mk disk (10, 20, 1280, 800) (0, 0, 1920, 1080) true [] [].

(** The centre view with the twelve-page document loaded. *)
Definition center_loaded : CenterPdfView.t :=
  (@CenterPdfView.load_file platform "/home/user/docs/paper.pdf" center).2.

(** A fallback comparison for the sort order: shorter names first. *)
Definition by_name_length (a b : QModelIndex) : bool :=
  (String.length (QFileSystemModel.fileName a)
   <? String.length (QFileSystemModel.fileName b))%nat.

(** The working directory of [tidy.py]: a favorites file that names a
    folder that exists and one that does not, and two documents, one of
    them held open by another process. *)
Definition tidy_disk : gmap string node :=
  <["favorites.txt" := File ("C:/books" +:+ newline +:+ "C:/gone")]>
  (<["C:/books" := Dir]>
  (<["C:/books/a.pdf" := File "%PDF-1.4"]>
  (<["C:/books/b.pdf" := File "%PDF-1.7"]> ∅))).

Definition tidy_window : Tidy.MainWindow.t := Tidy.MainWindow.mk tidy_disk [].

Definition tidy_explorer : Tidy.PdfExplorerWidget.t :=
  Tidy.PdfExplorerWidget.mk tidy_disk {["C:/books/b.pdf"]} "C:/books" [].

End Sample.

(* ================================================================== *)
(** * Python strings: examples and lemmas *)

Example lower_pdf : PyStr.lower "Report.PDF" = "report.pdf".
Proof. reflexivity. Qed.

Example endswith_pdf : PyStr.endswith "report.pdf" ".pdf" = true.
Proof. reflexivity. Qed.

Example endswith_short : PyStr.endswith "pdf" ".pdf" = false.
Proof. reflexivity. Qed.

Example splitlines_mixed :
  PyStr.splitlines (String "a" (String "013" (String "010" (String "010" (String "b" (String "010" EmptyString))))))
  = ["a"; ""; "b"].
Proof. reflexivity. Qed.

Example strip_both : PyStr.strip "  /home/user " = "/home/user".
Proof. reflexivity. Qed.

Example basename_path : PyStr.basename "/tmp/docs/a.pdf" = "a.pdf".
Proof. reflexivity. Qed.

Section string_lemmas.

Lemma length_app (a b : string) :
  String.length (a +:+ b) = (String.length a + String.length b)%nat.
Proof. induction a as [|c a IH]; simpl; [reflexivity | now rewrite IH]. Qed.

Lemma drop_app (a b : string) :
  PyStr.drop (String.length a) (a +:+ b) = b.
Proof. induction a as [|c a IH]; simpl; [now destruct b | exact IH]. Qed.

(** Every string is what [drop] skips followed by what it keeps. *)
Lemma drop_split (n : nat) (s : string) :
  exists pre, s = pre +:+ PyStr.drop n s.
Proof.
  revert s; induction n as [|n IH]; intros s.
  - exists EmptyString. reflexivity.
  - destruct s as [|c s]; simpl.
    + exists EmptyString. reflexivity.
    + destruct (IH s) as [pre Hpre]. exists (String c pre).
      change (String c s = String c (pre +:+ PyStr.drop n s)).
      now rewrite <- Hpre.
Qed.

(** [endswith] decides "is a suffix of". *)
Lemma endswith_spec (s suffix : string) :
  PyStr.endswith s suffix = true <-> exists pre, s = pre +:+ suffix.
Proof.
  unfold PyStr.endswith. rewrite andb_true_iff, Nat.leb_le, String.eqb_eq.
  split.
  - intros [_ Heq]. destruct (drop_split (String.length s - String.length suffix) s)
      as [pre Hpre]. exists pre. now rewrite Heq in Hpre.
  - intros [pre ->]. rewrite length_app. split; [lia|].
    replace (String.length pre + String.length suffix - String.length suffix)%nat
      with (String.length pre) by lia.
    apply drop_app.
Qed.

Lemma truthy_spec (s : string) : PyStr.truthy s = true <-> s <> EmptyString.
Proof. destruct s; simpl; split; congruence. Qed.

Lemma universal_newlines_cr_lf (s : string) :
  PyStr.universal_newlines (String "013" (String "010" s))
  = String "010" (PyStr.universal_newlines s).
Proof. reflexivity. Qed.

Lemma universal_newlines_cr (s : string) :
  (forall s', s <> String "010" s') ->
  PyStr.universal_newlines (String "013" s)
  = String "010" (PyStr.universal_newlines s).
Proof.
  intros Hs. destruct s as [|c s]; [reflexivity|].
  destruct c as [[] [] [] [] [] [] [] []]; try reflexivity.
  now destruct (Hs s).
Qed.

Lemma universal_newlines_other (c : ascii) (s : string) :
  c <> "013"%char ->
  PyStr.universal_newlines (String c s) = String c (PyStr.universal_newlines s).
Proof.
  intros Hc. destruct c as [[] [] [] [] [] [] [] []]; try reflexivity.
  contradiction.
Qed.

Lemma splitlines_go_cr_lf (cur s : string) :
  PyStr.splitlines_go cur (String "013" (String "010" s))
  = String.rev cur :: PyStr.splitlines_go EmptyString s.
Proof. reflexivity. Qed.

Lemma splitlines_go_cr (cur s : string) :
  (forall s', s <> String "010" s') ->
  PyStr.splitlines_go cur (String "013" s)
  = String.rev cur :: PyStr.splitlines_go EmptyString s.
Proof.
  intros Hs. destruct s as [|c s]; [reflexivity|].
  destruct c as [[] [] [] [] [] [] [] []]; try reflexivity.
  now destruct (Hs s).
Qed.

Lemma splitlines_go_break (cur : string) (c : ascii) (s : string) :
  PyStr.is_linebreak c = true ->
  c <> "013"%char ->
  PyStr.splitlines_go cur (String c s)
  = String.rev cur :: PyStr.splitlines_go EmptyString s.
Proof.
  intros Hb Hc. cbn [PyStr.splitlines_go]. rewrite Hb.
  destruct c as [[] [] [] [] [] [] [] []]; try reflexivity.
  contradiction.
Qed.

Lemma splitlines_go_plain (cur : string) (c : ascii) (s : string) :
  PyStr.is_linebreak c = false ->
  PyStr.splitlines_go cur (String c s) = PyStr.splitlines_go (String c cur) s.
Proof. intros Hb. cbn [PyStr.splitlines_go]. now rewrite Hb. Qed.

(** The lines of a text are the same before and after its line ends are
    read in text mode. *)
Lemma splitlines_go_universal_newlines (s cur : string) :
  PyStr.splitlines_go cur (PyStr.universal_newlines s) = PyStr.splitlines_go cur s.
Proof.
  remember (String.length s) as n eqn:Hn. revert s cur Hn.
  induction n as [n IH] using lt_wf_ind. intros s cur ->.
  destruct s as [|c s]; [reflexivity|].
  destruct (Ascii.eqb_spec c "013"%char) as [->|Hc].
  - destruct s as [|c' s'].
    + reflexivity.
    + destruct (Ascii.eqb_spec c' "010"%char) as [->|Hc'].
      * rewrite universal_newlines_cr_lf, splitlines_go_cr_lf.
        rewrite splitlines_go_break by (reflexivity || discriminate).
        f_equal. apply (IH (String.length s')); [simpl; lia|reflexivity].
      * rewrite universal_newlines_cr by (intros s'' E; congruence).
        rewrite splitlines_go_cr by (intros s'' E; congruence).
        rewrite splitlines_go_break by (reflexivity || discriminate).
        f_equal. apply (IH (String.length (String c' s'))); [simpl; lia|reflexivity].
  - rewrite universal_newlines_other by exact Hc.
    destruct (PyStr.is_linebreak c) eqn:Hb.
    + rewrite !splitlines_go_break by assumption.
      f_equal. apply (IH (String.length s)); [simpl; lia|reflexivity].
    + rewrite !splitlines_go_plain by assumption.
      apply (IH (String.length s)); [simpl; lia|reflexivity].
Qed.

Lemma splitlines_universal_newlines (s : string) :
  PyStr.splitlines (PyStr.universal_newlines s) = PyStr.splitlines s.
Proof. apply splitlines_go_universal_newlines. Qed.

End string_lemmas.

(* ================================================================== *)
(** * The proxy filter *)

Section filter.
Import QFileSystemModel PdfFilterProxyModel.

Lemma filterAcceptsRow_invalid model row parent :
  index model row parent = None -> filterAcceptsRow model row parent = false.
Proof. intros E. unfold filterAcceptsRow. now rewrite E. Qed.

Lemma filterAcceptsRow_entry model row parent name dir rows :
  index model row parent = Some (Entry name dir rows) ->
  filterAcceptsRow model row parent
  = dir || PyStr.endswith (PyStr.lower name) ".pdf".
Proof. intros E. unfold filterAcceptsRow. rewrite E. simpl. now destruct dir. Qed.

(** C1.  The filter accepts a row exactly when its index is valid and the
    entry is a directory or has a file name that, lowercased, ends with
    ".pdf"; the rows the view keeps under a parent are the accepted rows,
    so every other file is hidden. *)
Theorem filterAcceptsRow_spec (model : list entry) (row : Z) (parent : QModelIndex) :
  (filterAcceptsRow model row parent = true
   <-> exists i,
         i = index model row parent
         /\ isValid i = true
         /\ (isDir i = true
             \/ exists stem, PyStr.lower (fileName i) = stem +:+ ".pdf"))
  /\ (forall e,
        e ∈ shown_rows model parent
        <-> exists r : nat,
              index model (Z.of_nat r) parent = Some e
              /\ (isDir (Some e) = true
                  \/ PyStr.endswith (PyStr.lower (fileName (Some e))) ".pdf" = true)).
Proof.
  split.
  - destruct (index model row parent) as [[name dir rows]|] eqn:E.
    + rewrite (filterAcceptsRow_entry _ _ _ _ _ _ E), orb_true_iff, endswith_spec.
      split.
      * intros Hd. eexists; split; [reflexivity|]. split; [reflexivity|exact Hd].
      * intros (i & -> & _ & Hd). exact Hd.
    + rewrite (filterAcceptsRow_invalid _ _ _ E). split; [discriminate|].
      intros (i & -> & Hv & _). discriminate.
  - intros e. unfold shown_rows. rewrite list_elem_of_omap. split.
    + intros (r & _ & Hr). exists r.
      destruct (filterAcceptsRow model (Z.of_nat r) parent) eqn:Hacc; [|discriminate].
      assert (Hi : index model (Z.of_nat r) parent = Some e).
      { unfold index. destruct (Z.ltb_spec (Z.of_nat r) 0) as [?|_]; [lia|].
        now rewrite Nat2Z.id. }
      split; [exact Hi|]. destruct e as [name dir rows].
      rewrite (filterAcceptsRow_entry _ _ _ _ _ _ Hi), orb_true_iff in Hacc.
      exact Hacc.
    + intros (r & Hi & Hd). exists r.
      assert (Hr : rows_under model parent !! r = Some e).
      { unfold index in Hi. destruct (Z.ltb_spec (Z.of_nat r) 0) as [?|_]; [lia|].
        now rewrite Nat2Z.id in Hi. }
      split.
      * apply elem_of_seq. apply lookup_lt_Some in Hr. lia.
      * destruct e as [name dir rows].
        rewrite (filterAcceptsRow_entry _ _ _ _ _ _ Hi).
        simpl in Hd. apply orb_true_iff in Hd. now rewrite Hd.
Qed.

End filter.

(* ================================================================== *)
(** * The centre view: loading, navigation, zoom *)

Section ordering.

Lemma py_min_int (a b : Z) : py_min a b = Z.min a b.
Proof.
  unfold py_min, py_lt, PyLt_int. destruct (Z.ltb_spec b a); lia.
Qed.

Lemma py_max_int (a b : Z) : py_max a b = Z.max a b.
Proof.
  unfold py_max, py_lt, PyLt_int. destruct (Z.ltb_spec a b); lia.
Qed.

Lemma clamp_int (v lo hi : Z) : clamp v lo hi = Z.max lo (Z.min hi v).
Proof. unfold clamp. now rewrite py_max_int, py_min_int. Qed.

(** With [lo <= hi], [clamp] is the nearest point of the interval. *)
Lemma clamp_int_cases (v lo hi : Z) :
  lo <= hi ->
  (v < lo /\ clamp v lo hi = lo)
  \/ (lo <= v <= hi /\ clamp v lo hi = v)
  \/ (hi < v /\ clamp v lo hi = hi).
Proof. intros Hle. rewrite clamp_int. lia. Qed.

End ordering.

Section center_view.
Import CenterPdfView.

Lemma Status_eqb_spec (a b : Status) : Status_eqb a b = true <-> a = b.
Proof. destruct a, b; simpl; split; congruence. Qed.

Lemma not_readable_suffix (name : string) :
  PyStr.endswith (not_readable name) "Not readable or empty." = true.
Proof.
  apply endswith_spec. exists (name +:+ String "010" (String "010" EmptyString)).
  unfold not_readable. induction name as [|c name IH]; [reflexivity|].
  change (String c (name +:+ String "010" (String "010" "Not readable or empty."))
          = String c ((name +:+ String "010" (String "010" EmptyString))
                      +:+ "Not readable or empty.")).
  now rewrite IH.
Qed.

Lemma load_file_failure `{Platform} (file_path : string) (self : t) :
  negb (Status_eqb (QPdfDocument_load file_path).1 Ready)
  || ((QPdfDocument_load file_path).2 =? 0) = true ->
  load_file file_path self
  = (false,
     show_overlay (not_readable (PyStr.basename file_path))
       (doc_load file_path (overlay_clear (doc_close self)))).
Proof.
  intros Hbad. unfold load_file.
  replace (doc_status (doc_load file_path (overlay_clear (doc_close self))))
    with (QPdfDocument_load file_path).1
    by (unfold doc_load; now destruct (QPdfDocument_load file_path)).
  replace (doc_pageCount (doc_load file_path (overlay_clear (doc_close self))))
    with (QPdfDocument_load file_path).2
    by (unfold doc_load; now destruct (QPdfDocument_load file_path)).
  now rewrite Hbad.
Qed.

Lemma load_file_success `{Platform} (file_path : string) (self : t) :
  negb (Status_eqb (QPdfDocument_load file_path).1 Ready)
  || ((QPdfDocument_load file_path).2 =? 0) = false ->
  load_file file_path self
  = (true,
     _emit_current_page
       (log EmitDocumentLoaded
          (nav_jump 0
             (hide_overlay
                (doc_load file_path (overlay_clear (doc_close self))))))).
Proof.
  intros Hgood. unfold load_file.
  replace (doc_status (doc_load file_path (overlay_clear (doc_close self))))
    with (QPdfDocument_load file_path).1
    by (unfold doc_load; now destruct (QPdfDocument_load file_path)).
  replace (doc_pageCount (doc_load file_path (overlay_clear (doc_close self))))
    with (QPdfDocument_load file_path).2
    by (unfold doc_load; now destruct (QPdfDocument_load file_path)).
  now rewrite Hgood.
Qed.

Lemma unreadable_iff (st : Status) (n : Z) :
  negb (Status_eqb st Ready) || (n =? 0) = true <-> st <> Ready \/ n = 0.
Proof.
  rewrite orb_true_iff, negb_true_iff, Z.eqb_eq.
  split; (intros [Hs|Hn]; [left|now right]).
  - intros ->. discriminate.
  - destruct (Status_eqb st Ready) eqn:E; [|reflexivity].
    apply Status_eqb_spec in E. contradiction.
Qed.

(** C2.  [load_file] returns [False] with the error overlay shown (stack
    index 1, a text that ends with "Not readable or empty.") exactly
    when, after loading, the status is not [Ready] or the page count is
    0; it returns [True] with the overlay hidden, the navigator on page
    0 and [documentLoaded] emitted exactly in the other case. *)
Theorem load_file_spec `{Platform} (file_path : string) (self : t) :
  let st := (QPdfDocument_load file_path).1 in
  let n := (QPdfDocument_load file_path).2 in
  let ok := (load_file file_path self).1 in
  let self' := (load_file file_path self).2 in
  doc_status self' = st
  /\ doc_pageCount self' = n
  /\ ((ok = false
       /\ stack_index self' = 1
       /\ overlay_text self' = not_readable (PyStr.basename file_path)
       /\ PyStr.endswith (overlay_text self') "Not readable or empty." = true
       /\ trace self'
          = trace self
            ++ [DocClose; OverlayClear; DocLoad file_path;
                OverlaySetText (not_readable (PyStr.basename file_path));
                StackSetCurrentIndex 1])
      <-> (st <> Ready \/ n = 0))
  /\ ((ok = true
       /\ stack_index self' = 0
       /\ nav_page self' = 0
       /\ trace self'
          = trace self
            ++ [DocClose; OverlayClear; DocLoad file_path;
                StackSetCurrentIndex 0; NavJump 0;
                EmitDocumentLoaded; EmitPageChanged 0])
      <-> ~ (st <> Ready \/ n = 0)).
Proof.
  intros st n ok self'. subst st n ok self'.
  rewrite <- unreadable_iff.
  destruct (negb (Status_eqb (QPdfDocument_load file_path).1 Ready)
            || ((QPdfDocument_load file_path).2 =? 0)) eqn:E.
  - rewrite (load_file_failure _ _ E). unfold doc_load.
    destruct (QPdfDocument_load file_path) as [st n]. simpl.
    repeat split; try reflexivity; try (intros; tauto); try (intros [? _]; discriminate).
    + apply not_readable_suffix.
    + rewrite <- !app_assoc. reflexivity.
  - rewrite (load_file_success _ _ E). unfold doc_load.
    destruct (QPdfDocument_load file_path) as [st n]. simpl.
    repeat split; try reflexivity; try discriminate; try (intros [? _]; discriminate).
    rewrite <- !app_assoc. reflexivity.
Qed.

(** C9.  [go_to_page n] jumps to [clamp(n, 0, max(0, page_count - 1))],
    the nearest page of [0 .. max(0, page_count - 1)]; so do [next_page]
    and [prev_page], and the target is page 0 or a page below the page
    count, whatever [n] and also for a document without pages. *)
Theorem go_to_page_in_range (n : Z) (self : t) :
  let last := Z.max 0 (page_count self - 1) in
  let target := nav_page (go_to_page n self) in
  target = Z.max 0 (Z.min last n)
  /\ trace (go_to_page n self) = trace self ++ [NavJump target]
  /\ ((n < 0 /\ target = 0) \/ (0 <= n <= last /\ target = n)
      \/ (last < n /\ target = last))
  /\ 0 <= target <= last
  /\ (target = 0 \/ 0 < target < page_count self)
  /\ 0 <= nav_page (next_page self) <= last
  /\ 0 <= nav_page (prev_page self) <= last.
Proof.
  intros last target. subst last target.
  unfold next_page, prev_page, go_to_page. simpl.
  rewrite !clamp_int, !py_max_int.
  repeat split; try lia.
Qed.

End center_view.

Section zoom.
Import CenterPdfView.

(** C8.  The zoom mode is one of three settings, [Custom] (manual),
    [FitToWidth] and [FitInView] (fit to window); [fit_width],
    [fit_height] and [custom_zoom] set the mode to [FitToWidth],
    [FitInView] and [Custom]; every zoom-in and zoom-out, from the
    toolbar, a shortcut or a bare key, first sets the mode to [Custom]
    and then the factor. *)
Theorem zoom_mode_spec (center : t) :
  (forall m : ZoomMode, m = Custom \/ m = FitToWidth \/ m = FitInView)
  /\ (Custom <> FitToWidth /\ Custom <> FitInView /\ FitToWidth <> FitInView)
  /\ zoom_mode (fit_width center) = FitToWidth
  /\ zoom_mode (fit_height center) = FitInView
  /\ zoom_mode (custom_zoom center) = Custom
  /\ trace (fit_width center) = trace center ++ [SetZoomMode FitToWidth]
  /\ trace (fit_height center) = trace center ++ [SetZoomMode FitInView]
  /\ trace (custom_zoom center) = trace center ++ [SetZoomMode Custom]
  /\ (exists f, trace (MainWindow._zoom_in center)
                = trace center ++ [SetZoomMode Custom; SetZoomFactor f])
  /\ (exists f, trace (MainWindow._zoom_out center)
                = trace center ++ [SetZoomMode Custom; SetZoomFactor f])
  /\ zoom_mode (MainWindow._zoom_in center) = Custom
  /\ zoom_mode (MainWindow._zoom_out center) = Custom
  /\ (forall key,
        MainWindow.keyPressEvent key center = center
        \/ (zoom_mode (MainWindow.keyPressEvent key center) = Custom
            /\ exists f, trace (MainWindow.keyPressEvent key center)
                         = trace center ++ [SetZoomMode Custom; SetZoomFactor f])).
Proof.
  assert (Hin : exists f, trace (MainWindow._zoom_in center)
                          = trace center ++ [SetZoomMode Custom; SetZoomFactor f]).
  { eexists. unfold MainWindow._zoom_in, set_zoom_factor, custom_zoom. simpl.
    rewrite <- app_assoc. reflexivity. }
  assert (Hout : exists f, trace (MainWindow._zoom_out center)
                           = trace center ++ [SetZoomMode Custom; SetZoomFactor f]).
  { eexists. unfold MainWindow._zoom_out, set_zoom_factor, custom_zoom. simpl.
    rewrite <- app_assoc. reflexivity. }
  repeat split; try reflexivity; try discriminate; try assumption.
  - intros []; auto.
  - intros []; simpl; auto.
Qed.

End zoom.

(* ================================================================== *)
(** * Favorites and the last root *)

Section files_panel.
Import FilesPanel.
Context `{Platform}.

Lemma exists_is_Some (d : gmap string node) (p : string) :
  Path.exists_ d p = true <-> is_Some (d !! p).
Proof.
  unfold Path.exists_. destruct (d !! p); split; intros Hp;
    try reflexivity; try discriminate; eauto.
  now destruct Hp.
Qed.

Lemma is_dir_exists (d : gmap string node) (p : string) :
  Path.is_dir d p = true -> Path.exists_ d p = true.
Proof.
  unfold Path.is_dir, Path.exists_. destruct (d !! p); [reflexivity|discriminate].
Qed.

Lemma has_item_spec (folder : string) (items : list string) :
  has_item folder items = true <-> folder ∈ items.
Proof.
  induction items as [|text rest IH]; simpl.
  - split; [discriminate|]. intros Hin. inversion Hin.
  - rewrite elem_of_cons. destruct (String.eqb_spec text folder) as [->|Hne].
    + split; auto.
    + rewrite IH. split; [auto|]. intros [->|Hin]; [contradiction|exact Hin].
Qed.

Lemma set_fav_list_fav_list (self : t) : set_fav_list (fav_list self) self = self.
Proof. now destruct self. Qed.

(** The loop of [_load_favorites] appends the kept lines, in order, and
    leaves the rest of the object as it is. *)
Lemma load_loop (lines : list string) (self : t) :
  for_each lines (fun line =>
      let line := PyStr.strip line in
      if PyStr.truthy line then
        (let* there := path_exists line in
         if there then modify (addItem line) else ret tt)%py
      else ret tt) self
  = (Ok tt,
     set_fav_list
       (fav_list self
        ++ filter (fun line => line <> EmptyString /\ is_Some (disk self !! line))
             (PyStr.strip <$> lines)) self).
Proof.
  revert self. induction lines as [|line lines IH]; intros self.
  - simpl. unfold ret. rewrite filter_nil, app_nil_r.
    now rewrite set_fav_list_fav_list.
  - cbn [for_each fmap list_fmap]. rewrite filter_cons. unfold bind at 1.
    destruct (PyStr.truthy (PyStr.strip line)) eqn:Ht.
    + unfold bind at 1, path_exists, gets. cbn [the_disk has_disk].
      destruct (Path.exists_ (disk self) (PyStr.strip line)) eqn:He.
      * unfold modify. rewrite IH. cbn [disk addItem set_fav_list fav_list].
        rewrite decide_True.
        2:{ split; [now apply truthy_spec | now apply exists_is_Some]. }
        now rewrite <- app_assoc.
      * unfold ret. rewrite IH. rewrite decide_False; [reflexivity|].
        intros [_ Hs]. apply exists_is_Some in Hs. congruence.
    + unfold ret. rewrite IH. rewrite decide_False; [reflexivity|].
      intros [Hs _]. apply truthy_spec in Hs. congruence.
Qed.

Lemma _load_favorites_absent (self : t) :
  disk self !! FAVORITES_FILE = None ->
  _load_favorites self = (Ok tt, set_fav_list [] self).
Proof.
  intros Hno. unfold _load_favorites, _favorites_path, bind, modify, path_exists, gets.
  cbn [the_disk has_disk disk set_fav_list]. unfold Path.exists_. now rewrite Hno.
Qed.

Lemma _load_favorites_file (self : t) (text : string) :
  disk self !! FAVORITES_FILE = Some (File text) ->
  _load_favorites self
  = (Ok tt, set_fav_list (Spec.favorites_of_text (disk self) text) self).
Proof.
  intros Hf. unfold _load_favorites, _favorites_path.
  unfold bind at 1, modify at 1.
  unfold bind at 1, path_exists at 1, gets, Path.exists_ at 1.
  change (the_disk (set_fav_list [] self)) with (disk self). rewrite Hf.
  unfold bind at 1, read_text, Path.read_text.
  change (the_disk (set_fav_list [] self)) with (disk self). rewrite Hf.
  rewrite load_loop, splitlines_universal_newlines. reflexivity.
Qed.

Lemma _save_favorites_ok (self : t) :
  disk self !! FAVORITES_FILE <> Some Dir ->
  _save_favorites self
  = (Ok tt,
     with_disk (<[FAVORITES_FILE := File (PyStr.join newline (fav_list self))]>
                  (disk self)) self).
Proof.
  intros Hnd. unfold _save_favorites, _favorites_path, bind, gets, write_text,
    Path.write_text. cbn [the_disk has_disk].
  destruct (disk self !! FAVORITES_FILE) as [[|text]|]; [contradiction| |]; reflexivity.
Qed.

(** C4.  The favorites are kept as a text file, one path per line:
    saving writes the texts of the list items joined by single newline
    characters; loading yields the non-empty stripped lines of the file
    whose paths exist, in file order (nothing when there is no file). *)
Theorem favorites_file_format (self : t) :
  disk self !! FAVORITES_FILE <> Some Dir ->
  _save_favorites self
  = (Ok tt,
     with_disk (<[FAVORITES_FILE := File (PyStr.join newline (fav_list self))]>
                  (disk self)) self)
  /\ _load_favorites self
     = (Ok tt,
        set_fav_list
          (match disk self !! FAVORITES_FILE with
           | Some (File text) => Spec.favorites_of_text (disk self) text
           | _ => []
           end) self).
Proof.
  intros Hnd. split; [now apply _save_favorites_ok|].
  destruct (disk self !! FAVORITES_FILE) as [[|text]|] eqn:Hf.
  - contradiction.
  - now apply _load_favorites_file.
  - now apply _load_favorites_absent.
Qed.

(** C10.  Adding a folder that is already an item of the list changes
    neither the list nor the disk. *)
Theorem add_favorite_existing (folder : string) (self : t) :
  folder ∈ fav_list self ->
  _add_favorite folder self = (Ok tt, self).
Proof.
  intros Hin. unfold _add_favorite.
  destruct (PyStr.truthy folder); [|reflexivity].
  unfold bind, gets. apply has_item_spec in Hin. now rewrite Hin.
Qed.

(** What [_add_favorite] does with a folder that is not yet listed. *)
Lemma add_favorite_new (folder : string) (self : t) :
  folder <> EmptyString ->
  folder ∉ fav_list self ->
  disk self !! FAVORITES_FILE <> Some Dir ->
  _add_favorite folder self
  = (Ok tt,
     with_disk (<[FAVORITES_FILE := File (PyStr.join newline (fav_list self ++ [folder]))]>
                  (disk self))
       (addItem folder self)).
Proof.
  intros Hne Hnin Hnd. unfold _add_favorite.
  apply truthy_spec in Hne. rewrite Hne.
  unfold bind at 1, gets.
  destruct (has_item folder (fav_list self)) eqn:Hh.
  { apply has_item_spec in Hh. contradiction. }
  unfold bind, modify. rewrite _save_favorites_ok; [reflexivity|exact Hnd].
Qed.

(** Items stay distinct under [_add_favorite]. *)
Lemma add_favorite_NoDup (folder : string) (self : t) :
  NoDup (fav_list self) ->
  NoDup (fav_list (_add_favorite folder self).2).
Proof.
  intros Hnd. unfold _add_favorite.
  destruct (PyStr.truthy folder); [|exact Hnd].
  unfold bind at 1, gets.
  destruct (has_item folder (fav_list self)) eqn:Hh; [exact Hnd|].
  assert (Hnin : folder ∉ fav_list self).
  { intros Hin. apply has_item_spec in Hin. congruence. }
  assert (Hgoal : NoDup (fav_list self ++ [folder])).
  { apply NoDup_app. split; [exact Hnd|]. split.
    - intros x Hx Hx'. apply list_elem_of_singleton in Hx'. now subst.
    - apply NoDup_singleton. }
  unfold bind, modify, _save_favorites, _favorites_path, bind, gets, write_text.
  cbn [the_disk has_disk disk addItem set_fav_list fav_list].
  destruct (Path.write_text (disk self) FAVORITES_FILE _); exact Hgoal.
Qed.

Lemma _add_favorite_listed (folder : string) (self : t) :
  has_item folder (fav_list self) = true ->
  _add_favorite folder self = (Ok tt, self).
Proof.
  intros Hh. unfold _add_favorite.
  destruct (PyStr.truthy folder); [|reflexivity].
  unfold bind, gets. now rewrite Hh.
Qed.

(** A second add of the same folder does nothing, whatever the first did. *)
Lemma add_favorite_twice (folder : string) (self : t) :
  _add_favorite folder (_add_favorite folder self).2
  = (Ok tt, (_add_favorite folder self).2).
Proof.
  destruct (PyStr.truthy folder) eqn:Ht.
  2:{ unfold _add_favorite. now rewrite Ht. }
  destruct (has_item folder (fav_list self)) eqn:Hh.
  - rewrite (_add_favorite_listed _ _ Hh). now apply _add_favorite_listed.
  - apply _add_favorite_listed, has_item_spec.
    unfold _add_favorite. rewrite Ht. unfold bind at 1, gets. rewrite Hh.
    unfold bind, modify, _save_favorites, _favorites_path, bind, gets, write_text.
    cbn [the_disk has_disk disk addItem set_fav_list fav_list].
    destruct (Path.write_text (disk self) FAVORITES_FILE _);
      cbn; apply elem_of_app; right; apply list_elem_of_here.
Qed.

Lemma rev_app_rev_app (x y z : string) :
  String.rev_app (String.rev_app x y) z = String.rev_app y (x +:+ z).
Proof.
  revert y z. induction x as [|c x IH]; intros y z; [reflexivity|].
  cbn [String.rev_app]. rewrite IH. reflexivity.
Qed.

Lemma app_empty_r (x : string) : x +:+ EmptyString = x.
Proof.
  induction x as [|c x IH]; [reflexivity|].
  change (String c (x +:+ EmptyString) = String c x). now rewrite IH.
Qed.

Lemma rev_rev_app (x : string) : String.rev (String.rev_app x EmptyString) = x.
Proof.
  unfold String.rev. rewrite rev_app_rev_app. cbn [String.rev_app].
  apply app_empty_r.
Qed.

Lemma rev_app_nonempty (x y : string) :
  x <> EmptyString -> String.rev_app x y <> EmptyString.
Proof.
  revert y. induction x as [|c x IH]; intros y Hx; [contradiction|].
  cbn [String.rev_app]. destruct x as [|c' x]; [discriminate|].
  apply IH. discriminate.
Qed.

(** Reading a line that has no boundary in it only fills the buffer. *)
Lemma splitlines_go_one_line (x cur rest : string) :
  Spec.one_line x = true ->
  PyStr.splitlines_go cur (x +:+ rest)
  = PyStr.splitlines_go (String.rev_app x cur) rest.
Proof.
  revert cur. induction x as [|c x IH]; intros cur Hx; [reflexivity|].
  cbn [Spec.one_line] in Hx. apply andb_true_iff in Hx as [Hc Hx].
  apply negb_true_iff in Hc.
  change (String c x +:+ rest) with (String c (x +:+ rest)).
  cbn [PyStr.splitlines_go String.rev_app]. rewrite Hc. now apply IH.
Qed.

(** [splitlines] undoes [join] on non-empty one-line items. *)
Lemma splitlines_join (items : list string) :
  Forall (fun x => x <> EmptyString /\ Spec.one_line x = true) items ->
  PyStr.splitlines (PyStr.join newline items) = items.
Proof.
  unfold PyStr.splitlines. induction items as [|x rest IH]; intros Hall; [reflexivity|].
  apply Forall_cons in Hall as [[Hne Hone] Hall].
  destruct rest as [|y rest].
  - cbn [PyStr.join]. rewrite <- (app_empty_r x) at 1.
    rewrite (splitlines_go_one_line x _ _ Hone). cbn [PyStr.splitlines_go].
    pose proof (rev_app_nonempty x EmptyString Hne) as Hr.
    destruct (String.rev_app x EmptyString) eqn:E; [contradiction|].
    rewrite <- E. now rewrite rev_rev_app.
  - change (PyStr.join newline (x :: y :: rest))
      with (x +:+ newline +:+ PyStr.join newline (y :: rest)).
    rewrite (splitlines_go_one_line x _ _ Hone).
    change (newline +:+ PyStr.join newline (y :: rest))
      with (String "010" (PyStr.join newline (y :: rest))).
    cbn [PyStr.splitlines_go]. change (PyStr.is_linebreak "010") with true.
    cbn iota. rewrite rev_rev_app. f_equal. now apply IH.
Qed.

Lemma filter_kept (d : gmap string node) (items : list string) :
  Forall (fun x => x <> EmptyString /\ PyStr.strip x = x /\ is_Some (d !! x)) items ->
  filter (fun line => line <> EmptyString /\ is_Some (d !! line))
         (PyStr.strip <$> items) = items.
Proof.
  induction items as [|x items IH]; intros Hall; [reflexivity|].
  apply Forall_cons in Hall as [(Hx & Hstrip & Hex) Hall].
  cbn [fmap list_fmap]. rewrite filter_cons, Hstrip.
  rewrite decide_True by (split; assumption).
  f_equal. exact (IH Hall).
Qed.

(** What was saved is what is loaded, for favorites that are kept. *)
Lemma load_after_save (self : t) :
  disk self !! FAVORITES_FILE <> Some Dir ->
  Forall (Spec.kept_favorite (disk self)) (fav_list self) ->
  Forall (fun x => x <> FAVORITES_FILE) (fav_list self) ->
  fav_list (_load_favorites (_save_favorites self).2).2 = fav_list self.
Proof.
  intros Hnd Hkept Hother. rewrite (_save_favorites_ok self Hnd). cbn [snd].
  rewrite (_load_favorites_file _ (PyStr.join newline (fav_list self)))
    by (cbn; apply lookup_insert_eq).
  cbn [snd]. unfold Spec.favorites_of_text.
  rewrite splitlines_join.
  2:{ eapply Forall_impl; [exact Hkept|]. intros x (Hx & Hone & _). now split. }
  cbn [fav_list set_fav_list disk with_disk has_disk browser_root fileActivated warnings].
  apply filter_kept. rewrite Forall_forall in *. intros x Hin.
  destruct (Hkept x Hin) as (Hx & _ & Hstrip & Hex).
  split; [exact Hx|]. split; [exact Hstrip|].
  rewrite lookup_insert_ne; [exact Hex|]. intros Heq. now apply (Hother x Hin).
Qed.

End files_panel.

Section last_root.
Import FilesPanel.
Context `{Platform}.

Lemma _load_last_root_spec (d : gmap string node) :
  d !! LAST_ROOT_FILE <> Some Dir ->
  _load_last_root (blank d)
  = (Ok (match d !! LAST_ROOT_FILE with
         | Some (File text) =>
             let stored := PyStr.strip (PyStr.universal_newlines text) in
             if bool_decide (stored <> EmptyString /\ is_Some (d !! stored))
             then Some stored else None
         | _ => None
         end), blank d).
Proof.
  intros Hnd. unfold _load_last_root, _last_root_path.
  unfold bind at 1, path_exists at 1, gets, Path.exists_ at 1.
  change (the_disk (blank d)) with d.
  destruct (d !! LAST_ROOT_FILE) as [[|text]|] eqn:Hf; [contradiction| |reflexivity].
  unfold bind at 1, read_text, Path.read_text.
  change (the_disk (blank d)) with d. rewrite Hf. cbn zeta.
  destruct (PyStr.truthy (PyStr.strip (PyStr.universal_newlines text))) eqn:Ht.
  - unfold bind, path_exists, gets. change (the_disk (blank d)) with d.
    destruct (Path.exists_ d (PyStr.strip (PyStr.universal_newlines text))) eqn:He.
    + rewrite bool_decide_true; [reflexivity|].
      split; [now apply truthy_spec | now apply exists_is_Some].
    + rewrite bool_decide_false; [reflexivity|].
      intros [_ Hs]. apply exists_is_Some in Hs. congruence.
  - rewrite bool_decide_false; [reflexivity|].
    intros [Hs _]. apply truthy_spec in Hs. congruence.
Qed.

Lemma start_root_spec (d : gmap string node) :
  d !! LAST_ROOT_FILE <> Some Dir ->
  start_root (blank d) = (Ok (Spec.startup_root d), blank d).
Proof.
  intros Hnd. unfold start_root, bind. rewrite (_load_last_root_spec d Hnd).
  unfold ret, Spec.startup_root. f_equal. f_equal.
  destruct (d !! LAST_ROOT_FILE) as [[|text]|]; try reflexivity.
  cbn zeta. case_bool_decide as Hs; [|reflexivity].
  destruct Hs as [Hs _]. apply truthy_spec in Hs. now rewrite Hs.
Qed.


Lemma browser_setRootPath_ok (folder : string) (self : t) :
  Path.exists_ (disk self) folder = true ->
  browser_setRootPath folder self = (Ok tt, set_browser_root folder self).
Proof.
  intros He. unfold browser_setRootPath, bind, path_exists, gets.
  cbn [the_disk has_disk]. now rewrite He.
Qed.

(** The [try] block that moves the root also writes it to the file, and
    the connected slot writes it once more. *)
Lemma change_root_ok (folder : string) (self : t) :
  Path.exists_ (disk self) folder = true ->
  disk self !! LAST_ROOT_FILE <> Some Dir ->
  change_root MainWindow._persist_root folder self
  = (Ok tt,
     with_disk (<[LAST_ROOT_FILE := File folder]> (disk self))
       (set_browser_root folder self)).
Proof.
  intros He Hnd. unfold change_root, try_except.
  unfold bind at 1. rewrite (browser_setRootPath_ok _ _ He).
  unfold bind at 1, _save_last_root, _last_root_path, write_text at 1, Path.write_text.
  change (the_disk (set_browser_root folder self)) with (disk self).
  assert (Hw : match disk self !! LAST_ROOT_FILE with
               | Some Dir => Raise IsADirectoryError
               | _ => Ok (<[LAST_ROOT_FILE := File folder]> (disk self))
               end = Ok (<[LAST_ROOT_FILE := File folder]> (disk self))).
  { destruct (disk self !! LAST_ROOT_FILE) as [[|text]|]; [contradiction| |]; reflexivity. }
  rewrite Hw. unfold MainWindow._persist_root, try_except, write_text, Path.write_text.
  cbn [the_disk with_disk has_disk disk set_browser_root browser_root fav_list
       fileActivated warnings].
  rewrite lookup_insert_eq, insert_insert_eq. reflexivity.
Qed.





End last_root.

Section missing_favorites.
Context `{Platform}.

Lemma tidy_loadFavorites_absent (self : Tidy.MainWindow.t) :
  Tidy.MainWindow.disk self !! "favorites.txt" = None ->
  Tidy.MainWindow._loadFavorites self = (Raise FileNotFoundError, self).
Proof.
  intros Hno. unfold Tidy.MainWindow._loadFavorites, bind, read_text, Path.read_text.
  cbn [the_disk Tidy.MainWindow.has_disk]. now rewrite Hno.
Qed.

(** C3.  On a disk without a favorites file, [FilesPanel._load_favorites]
    of [pdf_viewer.py] yields the empty list; [MainWindow._loadFavorites]
    of [tidy.py] raises [FileNotFoundError] instead. *)
Theorem favorites_missing_file :
  FilesPanel._load_favorites (FilesPanel.blank ∅) = (Ok tt, FilesPanel.blank ∅)
  /\ Tidy.MainWindow._loadFavorites (Tidy.MainWindow.mk ∅ [])
     = (Raise FileNotFoundError, Tidy.MainWindow.mk ∅ []).
Proof.
  split.
  - now rewrite _load_favorites_absent.
  - now apply tidy_loadFavorites_absent.
Qed.

End missing_favorites.

(* ================================================================== *)
(** * The window state *)

Section window_state.
Import MainWindow.
Context `{Platform}.

Lemma _save_window_settings_ok (self : t) :
  disk self !! WINDOW_STATE_FILE <> Some Dir ->
  _save_window_settings self
  = (Ok tt,
     with_disk
       (<[WINDOW_STATE_FILE :=
            File (json_dumps
                    (Spec.window_record (normal_geometry self) (maximized self)))]>
          (disk self))
       (if maximized self then showMaximized (showNormal self) else self)).
Proof.
  intros Hnd. unfold _save_window_settings, try_except.
  unfold bind at 1, gets at 1, isMaximized.
  destruct self as [d [[[x y] w] h] mg m tr pr]. cbn [maximized disk] in *.
  destruct m.
  - unfold bind, modify, gets, ret, write_text, Path.write_text. cbn.
    destruct (d !! WINDOW_STATE_FILE) as [[|text]|]; [contradiction| |]; reflexivity.
  - unfold bind, modify, gets, ret, write_text, Path.write_text. cbn.
    destruct (d !! WINDOW_STATE_FILE) as [[|text]|]; [contradiction| |]; reflexivity.
Qed.

(** C5.  The close event saves the window state: the file then holds the
    JSON object with the rectangle x, y, width, height of the window
    shown normal under "geometry" and the maximized flag under
    "is_maximized"; the window is left as it was. *)
Theorem closeEvent_writes_window_record (self : t) :
  disk self !! WINDOW_STATE_FILE <> Some Dir ->
  let self' := (closeEvent self).2 in
  (closeEvent self).1 = Ok tt
  /\ disk self' !! WINDOW_STATE_FILE
     = Some (File (json_dumps
                     (Spec.window_record (normal_geometry self) (maximized self))))
  /\ (forall p, p <> WINDOW_STATE_FILE -> disk self' !! p = disk self !! p)
  /\ maximized self' = maximized self
  /\ normal_geometry self' = normal_geometry self
  /\ printed self' = printed self
  /\ exists calls, trace self' = trace self ++ calls ++ [SuperCloseEvent].
Proof.
  intros Hnd. cbn zeta. unfold closeEvent, bind.
  rewrite (_save_window_settings_ok self Hnd). unfold modify.
  cbn [fst snd]. destruct (maximized self) eqn:Hm.
  - cbn. rewrite lookup_insert_eq. repeat split; try reflexivity.
    + intros p Hp. now rewrite lookup_insert_ne.
    + exists [ShowNormal; ShowMaximized]. now rewrite <- !app_assoc.
  - cbn. rewrite lookup_insert_eq. repeat split; try reflexivity; try assumption.
    + intros p Hp. now rewrite lookup_insert_ne.
    + exists []. reflexivity.
Qed.

Lemma _load_window_settings_absent (self : t) :
  disk self !! WINDOW_STATE_FILE = None ->
  _load_window_settings self = (Ok tt, showMaximized self).
Proof.
  intros Hno. unfold _load_window_settings, bind, path_exists, gets, Path.exists_.
  cbn [the_disk has_disk]. now rewrite Hno.
Qed.

(** Enter the [try] block and read the file, whose node [Hf] gives. *)
Ltac read_window_file Hf :=
  unfold _load_window_settings;
  unfold bind at 1, path_exists, gets, Path.exists_;
  cbn [the_disk has_disk]; rewrite Hf; cbn [negb];
  unfold try_except; unfold bind at 1, read_text, Path.read_text;
  cbn [the_disk has_disk]; rewrite Hf.

Ltac parse_window_file Hf Hparse :=
  read_window_file Hf; unfold bind at 1, lift at 1; rewrite Hparse.

Ltac show_by_flag fields :=
  destruct (Json.assoc "is_maximized" fields) as [v|]; cbn [Json.truthy];
  [destruct (Json.truthy v)|]; reflexivity.

Lemma _load_window_settings_dir (self : t) :
  disk self !! WINDOW_STATE_FILE = Some Dir ->
  _load_window_settings self
  = (Ok tt, showMaximized (print IsADirectoryError self)).
Proof. intros Hd. read_window_file Hd. reflexivity. Qed.

Lemma _load_window_settings_raise (self : t) (text : string) (e : exn) :
  disk self !! WINDOW_STATE_FILE = Some (File text) ->
  json_loads (PyStr.universal_newlines text) = Raise e ->
  _load_window_settings self = (Ok tt, showMaximized (print e self)).
Proof. intros Hf He. parse_window_file Hf He. reflexivity. Qed.

Lemma _load_window_settings_not_object (self : t) (text : string) (data : json) :
  disk self !! WINDOW_STATE_FILE = Some (File text) ->
  json_loads (PyStr.universal_newlines text) = Ok data ->
  (forall fields, data <> JObject fields) ->
  _load_window_settings self = (Ok tt, showMaximized (print AttributeError self)).
Proof.
  intros Hf Hd Hno. parse_window_file Hf Hd.
  destruct data; try reflexivity. now destruct (Hno fields).
Qed.

Lemma _load_window_settings_no_geometry
    (self : t) (text : string) (fields : list (string * json)) :
  disk self !! WINDOW_STATE_FILE = Some (File text) ->
  json_loads (PyStr.universal_newlines text) = Ok (JObject fields) ->
  Json.assoc "geometry" fields = None
  \/ (exists items, Json.assoc "geometry" fields = Some (JList items)
                    /\ length items <> 4%nat) ->
  _load_window_settings self = (Ok tt, Spec.show_as (Spec.flag_of fields) self).
Proof.
  intros Hf Hd Hg. parse_window_file Hf Hd.
  unfold bind, lift, Json.get, Spec.flag_of, Spec.show_as.
  destruct Hg as [Hg|(items & Hg & Hlen)]; rewrite Hg.
  - cbn [Json.truthy]. unfold ret. show_by_flag fields.
  - destruct items as [|i0 items].
    + cbn [Json.truthy]. unfold ret. show_by_flag fields.
    + cbn [Json.truthy Json.len].
      destruct (Z.eqb_spec (Z.of_nat (length (i0 :: items))) 4) as [E|_]; [lia|].
      unfold ret. show_by_flag fields.
Qed.

Lemma as_int_in_range (n : Z) : Spec.int_range n -> QWidget.as_int (JInt n) = Ok n.
Proof.
  unfold Spec.int_range, QWidget.as_int. intros Hn.
  destruct (Z.leb_spec (- 2 ^ 31) n); [|lia].
  destruct (Z.ltb_spec n (2 ^ 31)); [reflexivity|lia].
Qed.

Lemma _load_window_settings_geometry
    (self : t) (text : string) (fields : list (string * json)) (x y w h : Z) :
  disk self !! WINDOW_STATE_FILE = Some (File text) ->
  json_loads (PyStr.universal_newlines text) = Ok (JObject fields) ->
  Json.assoc "geometry" fields = Some (JList [JInt x; JInt y; JInt w; JInt h]) ->
  Spec.int_range x -> Spec.int_range y -> Spec.int_range w -> Spec.int_range h ->
  _load_window_settings self
  = (Ok tt, Spec.show_as (Spec.flag_of fields) (Spec.with_geometry (x, y, w, h) self)).
Proof.
  intros Hf Hd Hg Hx Hy Hw Hh. parse_window_file Hf Hd.
  unfold bind, lift, Json.get, Spec.flag_of, Spec.show_as.
  rewrite Hg.
  cbn [Json.truthy Json.len length Z.of_nat Pos.of_succ_nat Pos.succ Z.eqb Pos.eqb].
  unfold restore_geometry, bind, lift. cbn [Json.iter].
  unfold setGeometry, bind, lift.
  rewrite (as_int_in_range x Hx), (as_int_in_range y Hy),
    (as_int_in_range w Hw), (as_int_in_range h Hh).
  unfold modify. show_by_flag fields.
Qed.

Lemma as_int_out_of_range (n : Z) :
  ~ Spec.int_range n -> QWidget.as_int (JInt n) = Raise OverflowError.
Proof.
  unfold Spec.int_range, QWidget.as_int. intros Hn.
  destruct (Z.leb_spec (- 2 ^ 31) n); [|reflexivity].
  destruct (Z.ltb_spec n (2 ^ 31)); [|reflexivity]. lia.
Qed.

Lemma int_range_dec (n : Z) : Spec.int_range n \/ ~ Spec.int_range n.
Proof. unfold Spec.int_range. lia. Qed.

Lemma _load_window_settings_overflow
    (self : t) (text : string) (fields : list (string * json)) (x y w h : Z) :
  disk self !! WINDOW_STATE_FILE = Some (File text) ->
  json_loads (PyStr.universal_newlines text) = Ok (JObject fields) ->
  Json.assoc "geometry" fields = Some (JList [JInt x; JInt y; JInt w; JInt h]) ->
  ~ (Spec.int_range x /\ Spec.int_range y /\ Spec.int_range w /\ Spec.int_range h) ->
  _load_window_settings self = (Ok tt, showMaximized (print OverflowError self)).
Proof.
  intros Hf Hd Hg Hout. parse_window_file Hf Hd.
  unfold bind, lift, Json.get. rewrite Hg.
  cbn [Json.truthy Json.len length Z.of_nat Pos.of_succ_nat Pos.succ Z.eqb Pos.eqb].
  unfold restore_geometry, bind, lift. cbn [Json.iter].
  unfold setGeometry, bind, lift.
  destruct (int_range_dec x) as [Hx|Hx];
    [rewrite (as_int_in_range x Hx) | now rewrite (as_int_out_of_range x Hx)].
  destruct (int_range_dec y) as [Hy|Hy];
    [rewrite (as_int_in_range y Hy) | now rewrite (as_int_out_of_range y Hy)].
  destruct (int_range_dec w) as [Hw|Hw];
    [rewrite (as_int_in_range w Hw) | now rewrite (as_int_out_of_range w Hw)].
  destruct (int_range_dec h) as [Hh|Hh];
    [tauto | now rewrite (as_int_out_of_range h Hh)].
Qed.

(** Restoring the window state never raises. *)
Lemma _load_window_settings_total (self : t) :
  (_load_window_settings self).1 = Ok tt.
Proof.
  destruct (disk self !! WINDOW_STATE_FILE) as [[|text]|] eqn:Hf.
  - now rewrite _load_window_settings_dir.
  - read_window_file Hf.
    match goal with |- (let (_, _) := ?b in _).1 = _ =>
      destruct b as [[[]|e] s] end; reflexivity.
  - now rewrite _load_window_settings_absent.
Qed.

(** C6, as the code has it.  Restoring the window state never raises.
    It shows the window maximized, the geometry left as it is, when the
    file is absent, when a directory is in its place, when its text as
    read does not parse, and when the parsed top level is not an object.
    A record whose geometry is missing or is a list that is not four
    elements leaves the geometry as it is and shows the window as its
    flag says, normal when the flag is false or missing.  A record whose
    geometry is a list of four integers that all fit a C [int] sets that
    geometry and then shows the window as its flag says; when one of the
    four does not fit, [setGeometry] raises [OverflowError], the geometry
    is left as it is and the window is shown maximized. *)
Theorem load_window_settings_spec (self : t) :
  let self' := (_load_window_settings self).2 in
  (_load_window_settings self).1 = Ok tt
  /\ (disk self !! WINDOW_STATE_FILE = None -> self' = showMaximized self)
  /\ (disk self !! WINDOW_STATE_FILE = Some Dir ->
      self' = showMaximized (print IsADirectoryError self))
  /\ (forall text e,
        disk self !! WINDOW_STATE_FILE = Some (File text) ->
        json_loads (PyStr.universal_newlines text) = Raise e ->
        self' = showMaximized (print e self))
  /\ (forall text data,
        disk self !! WINDOW_STATE_FILE = Some (File text) ->
        json_loads (PyStr.universal_newlines text) = Ok data ->
        (forall fields, data <> JObject fields) ->
        self' = showMaximized (print AttributeError self))
  /\ (forall text fields,
        disk self !! WINDOW_STATE_FILE = Some (File text) ->
        json_loads (PyStr.universal_newlines text) = Ok (JObject fields) ->
        Json.assoc "geometry" fields = None
        \/ (exists items, Json.assoc "geometry" fields = Some (JList items)
                          /\ length items <> 4%nat) ->
        self' = Spec.show_as (Spec.flag_of fields) self
        /\ normal_geometry self' = normal_geometry self
        /\ maximized self' = Spec.flag_of fields)
  /\ (forall text fields x y w h,
        disk self !! WINDOW_STATE_FILE = Some (File text) ->
        json_loads (PyStr.universal_newlines text) = Ok (JObject fields) ->
        Json.assoc "geometry" fields = Some (JList [JInt x; JInt y; JInt w; JInt h]) ->
        Spec.int_range x -> Spec.int_range y ->
        Spec.int_range w -> Spec.int_range h ->
        self' = Spec.show_as (Spec.flag_of fields) (Spec.with_geometry (x, y, w, h) self)
        /\ normal_geometry self' = (x, y, w, h)
        /\ maximized self' = Spec.flag_of fields)
  /\ (forall text fields x y w h,
        disk self !! WINDOW_STATE_FILE = Some (File text) ->
        json_loads (PyStr.universal_newlines text) = Ok (JObject fields) ->
        Json.assoc "geometry" fields = Some (JList [JInt x; JInt y; JInt w; JInt h]) ->
        ~ (Spec.int_range x /\ Spec.int_range y
           /\ Spec.int_range w /\ Spec.int_range h) ->
        self' = showMaximized (print OverflowError self)
        /\ normal_geometry self' = normal_geometry self
        /\ maximized self' = true).
Proof.
  cbn zeta. split; [apply _load_window_settings_total|].
  split; [intros Hno; now rewrite _load_window_settings_absent|].
  split; [intros Hd; now rewrite _load_window_settings_dir|].
  split; [intros text e Hf He; now rewrite (_load_window_settings_raise _ _ _ Hf He)|].
  split; [intros text data Hf Hd Hno;
          now rewrite (_load_window_settings_not_object _ _ _ Hf Hd Hno)|].
  split; [|split].
  - intros text fields Hf Hd Hg.
    rewrite (_load_window_settings_no_geometry _ _ _ Hf Hd Hg). cbn [snd].
    unfold Spec.show_as. now destruct (Spec.flag_of fields).
  - intros text fields x y w h Hf Hd Hg Hx Hy Hw Hh.
    rewrite (_load_window_settings_geometry _ _ _ x y w h Hf Hd Hg Hx Hy Hw Hh).
    cbn [snd]. unfold Spec.show_as. now destruct (Spec.flag_of fields).
  - intros text fields x y w h Hf Hd Hg Hout.
    rewrite (_load_window_settings_overflow _ _ _ x y w h Hf Hd Hg Hout).
    now repeat split.
Qed.

End window_state.

(* ================================================================== *)
(** * The theorems at work on the sample platform *)

Section on_sample.
Local Existing Instance Sample.platform.

Lemma favorites_file_format_witness :
  FilesPanel.disk Sample.panel !! FAVORITES_FILE <> Some Dir
  /\ FilesPanel._load_favorites Sample.panel
     = (Ok tt,
        FilesPanel.set_fav_list ["/home/user/books"; "/home/user/docs"] Sample.panel).
Proof.
  assert (Hnd : FilesPanel.disk Sample.panel !! FAVORITES_FILE <> Some Dir)
    by (vm_compute; discriminate).
  split; [exact Hnd|].
  destruct (favorites_file_format Sample.panel Hnd) as [_ Hload].
  rewrite Hload. vm_compute. reflexivity.
Defined.

Lemma add_favorite_existing_witness :
  "/home/user/books" ∈ FilesPanel.fav_list Sample.panel
  /\ FilesPanel._add_favorite "/home/user/books" Sample.panel = (Ok tt, Sample.panel).
Proof.
  assert (Hin : "/home/user/books" ∈ FilesPanel.fav_list Sample.panel)
    by (simpl; apply list_elem_of_here).
  split; [exact Hin|]. apply (add_favorite_existing _ _ Hin).
Defined.



Lemma closeEvent_writes_window_record_witness :
  MainWindow.disk (Sample.window Sample.disk) !! WINDOW_STATE_FILE <> Some Dir
  /\ MainWindow.disk (MainWindow.closeEvent (Sample.window Sample.disk)).2
       !! WINDOW_STATE_FILE
     = Some (File (Sample.dumps
                     (JObject [("geometry",
                                JList [JInt 100; JInt 100; JInt 1280; JInt 800]);
                               ("is_maximized", JBool false)]))).
Proof.
  assert (Hnd : MainWindow.disk (Sample.window Sample.disk) !! WINDOW_STATE_FILE
                <> Some Dir) by (vm_compute; discriminate).
  split; [exact Hnd|].
  destruct (closeEvent_writes_window_record (Sample.window Sample.disk) Hnd)
    as (_ & Hfile & _).
  exact Hfile.
Defined.

Lemma load_window_settings_spec_witness :
  MainWindow.normal_geometry
    (MainWindow._load_window_settings (Sample.window Sample.disk)).2
  = (10, 20, 1280, 800)
  /\ MainWindow.maximized
       (MainWindow._load_window_settings (Sample.window Sample.disk)).2
     = true.
Proof.
  destruct (load_window_settings_spec (Sample.window Sample.disk))
    as (_ & _ & _ & _ & _ & _ & Hgeometry & _).
  destruct (Hgeometry (Sample.dumps Sample.full_record)
              [("geometry", JList [JInt 10; JInt 20; JInt 1280; JInt 800]);
               ("is_maximized", JBool true)] 10 20 1280 800)
    as (_ & Hg & Hm);
    try reflexivity; try (unfold Spec.int_range; lia).
  split; [exact Hg|exact Hm].
Defined.

(** C6 as stated fails: the sample disk with a window-state file whose
    geometry is a list of three numbers and whose flag is false.  The
    contents are invalid in the sense of the claim, and the window is
    shown normal, not maximized. *)
Lemma short_geometry_shown_normal :
  let self := Sample.window Sample.disk_short in
  let text := Sample.dumps Sample.short_record in
  MainWindow.disk self !! WINDOW_STATE_FILE = Some (File text)
  /\ Spec.invalid_window_state text
  /\ MainWindow.maximized (MainWindow._load_window_settings self).2 = false
  /\ MainWindow.trace (MainWindow._load_window_settings self).2 = [ShowNormal].
Proof.
  cbn zeta. split; [reflexivity|]. split.
  - right. exists [("geometry", JList [JInt 0; JInt 0; JInt 800]);
                   ("is_maximized", JBool false)], [JInt 0; JInt 0; JInt 800].
    split; [reflexivity|]. split; [reflexivity|]. simpl. lia.
  - split; vm_compute; reflexivity.
Qed.

End on_sample.

(* ================================================================== *)
(** * The message filter and the sort order *)

Section message_filter.

Lemma startswith_spec (s prefix : string) :
  PyStr.startswith s prefix = true <-> exists post, s = prefix +:+ post.
Proof.
  revert s. induction prefix as [|a prefix IH]; intros s.
  - split; [intros _; now exists s | intros _; now destruct s].
  - destruct s as [|b s]; simpl.
    + split; [discriminate | intros [post Hp]; discriminate].
    + rewrite andb_true_iff, IH. split.
      * intros [Hab [post ->]]. apply Ascii.eqb_eq in Hab as ->. now exists post.
      * intros [post Hp].
        change (String b s = String a (prefix +:+ post)) in Hp.
        injection Hp as -> ->. split; [apply Ascii.eqb_refl | now exists post].
Qed.

(** [in] decides "occurs somewhere in". *)
Lemma contains_spec (s sub : string) :
  PyStr.contains s sub = true <-> exists pre post, s = pre +:+ sub +:+ post.
Proof.
  induction s as [|c s IH].
  - cbn [PyStr.contains]. rewrite orb_false_r, startswith_spec. split.
    + intros [post Hp]. now exists EmptyString, post.
    + intros (pre & post & Hp). destruct pre as [|a pre]; [now exists post|].
      discriminate.
  - cbn [PyStr.contains]. rewrite orb_true_iff, startswith_spec, IH. split.
    + intros [[post Hp]|(pre & post & Hp)].
      * now exists EmptyString, post.
      * exists (String c pre), post. now rewrite Hp.
    + intros (pre & post & Hp). destruct pre as [|a pre].
      * left. now exists post.
      * right. exists pre, post.
        change (String c s = String a (pre +:+ sub +:+ post)) in Hp.
        now injection Hp.
Qed.

Lemma QtMsgType_eqb_spec (a b : QtMsgType) : QtMsgType_eqb a b = true <-> a = b.
Proof. destruct a, b; simpl; split; congruence. Qed.

(** X1.  The message filter drops a message exactly when it is a warning
    whose text contains "bookmark with invalid location"; every other
    message is written to the error stream once, followed by a newline,
    after what the stream already holds. *)
Theorem qt_message_filter_spec (msg_type : QtMsgType) (message : string)
    (stderr : list string) :
  let noisy :=
    msg_type = QtWarningMsg
    /\ exists pre post,
         message = pre +:+ "bookmark with invalid location" +:+ post in
  (noisy /\ qt_message_filter msg_type message stderr = stderr)
  \/ (~ noisy
      /\ qt_message_filter msg_type message stderr
         = stderr ++ [message +:+ String "010" EmptyString]).
Proof.
  cbn zeta. unfold qt_message_filter.
  destruct (QtMsgType_eqb msg_type QtWarningMsg
            && PyStr.contains message "bookmark with invalid location") eqn:E.
  - left. apply andb_true_iff in E as [Ht Hc].
    apply QtMsgType_eqb_spec in Ht. apply contains_spec in Hc. now split.
  - right. split; [|reflexivity]. intros [Ht Hc].
    apply QtMsgType_eqb_spec in Ht. apply contains_spec in Hc.
    rewrite Ht, Hc in E. discriminate.
Qed.

End message_filter.

Section sort_order.
Import QFileSystemModel PdfFilterProxyModel.
Variable super_lessThan : QModelIndex -> QModelIndex -> bool.

(** X2.  With a fallback comparison that is a strict order, [lessThan] is
    a strict order too, and it puts every directory before every file,
    whatever the fallback says about the two. *)
Theorem lessThan_strict_order :
  (forall a, super_lessThan a a = false) ->
  (forall a b c, super_lessThan a b = true -> super_lessThan b c = true ->
                 super_lessThan a c = true) ->
  (forall a, lessThan super_lessThan a a = false)
  /\ (forall a b c,
        lessThan super_lessThan a b = true ->
        lessThan super_lessThan b c = true ->
        lessThan super_lessThan a c = true)
  /\ (forall a b,
        lessThan super_lessThan a b = true ->
        lessThan super_lessThan b a = false)
  /\ (forall d f,
        isDir d = true -> isDir f = false ->
        lessThan super_lessThan d f = true
        /\ lessThan super_lessThan f d = false).
Proof.
  intros Hirr Htrans.
  assert (Hi : forall a, lessThan super_lessThan a a = false).
  { intros a. unfold lessThan. rewrite xorb_nilpotent. apply Hirr. }
  assert (Ht : forall a b c,
             lessThan super_lessThan a b = true ->
             lessThan super_lessThan b c = true ->
             lessThan super_lessThan a c = true).
  { intros a b c. unfold lessThan.
    destruct (isDir a), (isDir b), (isDir c); simpl; try congruence; apply Htrans. }
  split; [exact Hi|]. split; [exact Ht|]. split.
  - intros a b Hab. destruct (lessThan super_lessThan b a) eqn:Hba; [|reflexivity].
    rewrite <- (Hi a). symmetry. now apply (Ht a b a).
  - intros d f Hd Hf. unfold lessThan. rewrite Hd, Hf. now split.
Qed.

End sort_order.

Section filter_case.
Import QFileSystemModel PdfFilterProxyModel.

Lemma lower_app (a b : string) :
  PyStr.lower (a +:+ b) = PyStr.lower a +:+ PyStr.lower b.
Proof.
  induction a as [|c a IH]; [reflexivity|].
  change (String (PyStr.lower_char c) (PyStr.lower (a +:+ b))
          = String (PyStr.lower_char c) (PyStr.lower a +:+ PyStr.lower b)).
  now rewrite IH.
Qed.

(** X3.  The filter does not look at letter case: a file is shown as soon
    as its name ends with an extension that lowercases to ".pdf". *)
Theorem filter_accepts_any_case (model : list entry) (row : Z)
    (parent : QModelIndex) (stem ext : string) (rows : list entry) :
  index model row parent = Some (Entry (stem +:+ ext) false rows) ->
  PyStr.lower ext = ".pdf" ->
  filterAcceptsRow model row parent = true.
Proof.
  intros Hi Hext. rewrite (filterAcceptsRow_entry _ _ _ _ _ _ Hi).
  cbn [orb]. apply endswith_spec. exists (PyStr.lower stem).
  now rewrite lower_app, Hext.
Qed.

End filter_case.

(* ================================================================== *)
(** * Zoom range, page stepping, bookmarks and the toolbar *)

Section clamp_range.
Context {A : Type} `{PyLt A}.

(** With [lo < hi], [clamp] answers [lo], [hi], or the value itself when
    that lies strictly between them; a value that compares with nothing
    ends at [hi]. *)
Lemma clamp_cases (v lo hi : A) :
  py_lt lo hi = true ->
  clamp v lo hi = lo
  \/ clamp v lo hi = hi
  \/ (clamp v lo hi = v /\ py_lt lo v = true /\ py_lt v hi = true).
Proof.
  intros Hlh. unfold clamp, py_max, py_min.
  destruct (py_lt v hi) eqn:Hv.
  - destruct (py_lt lo v) eqn:Hl; [right; right; now repeat split | now left].
  - rewrite Hlh. right. now left.
Qed.

End clamp_range.

Section zoom_range.
Import CenterPdfView.

(** X4.  Whatever factor is asked for, [set_zoom_factor] sets 0.05, 6.0,
    or the factor asked for when that lies strictly between the two; so
    do zooming in and out, which ask for the current factor times or
    divided by 1.10.  The mode and the rest of the view are not touched
    by [set_zoom_factor]. *)
Theorem zoom_factor_in_range (f : float) (center : t) :
  let in_range (asked set : float) :=
    set = zoom_min \/ set = zoom_max
    \/ (set = asked
        /\ PrimFloat.ltb zoom_min asked = true
        /\ PrimFloat.ltb asked zoom_max = true) in
  in_range f (zoom_factor (set_zoom_factor f center))
  /\ zoom_mode (set_zoom_factor f center) = zoom_mode center
  /\ nav_page (set_zoom_factor f center) = nav_page center
  /\ in_range (PrimFloat.mul (zoom_factor center) MainWindow.zoom_step)
       (zoom_factor (MainWindow._zoom_in center))
  /\ in_range (PrimFloat.div (zoom_factor center) MainWindow.zoom_step)
       (zoom_factor (MainWindow._zoom_out center)).
Proof.
  cbn zeta.
  assert (Hr : forall asked c,
             zoom_factor (set_zoom_factor asked c) = clamp asked zoom_min zoom_max)
    by reflexivity.
  assert (Hc : forall asked,
             clamp asked zoom_min zoom_max = zoom_min
             \/ clamp asked zoom_min zoom_max = zoom_max
             \/ (clamp asked zoom_min zoom_max = asked
                 /\ PrimFloat.ltb zoom_min asked = true
                 /\ PrimFloat.ltb asked zoom_max = true)).
  { intros asked. apply (clamp_cases asked zoom_min zoom_max). reflexivity. }
  split; [rewrite Hr; apply Hc|]. split; [reflexivity|]. split; [reflexivity|].
  split.
  - unfold MainWindow._zoom_in. rewrite Hr. apply Hc.
  - unfold MainWindow._zoom_out. rewrite Hr. apply Hc.
Qed.

(** X5.  Home goes to page 0 and End to the last page, [max(0,
    page_count - 1)]; stepping forward from the last page or back from
    page 0 stays there, and going to the same page twice is going there
    once. *)
Theorem navigation_saturates (n : Z) (self : t) :
  nav_page (MainWindow.shortcut_Home self) = 0
  /\ nav_page (MainWindow.shortcut_End self) = Z.max 0 (page_count self - 1)
  /\ nav_page (next_page (MainWindow.shortcut_End self))
     = nav_page (MainWindow.shortcut_End self)
  /\ nav_page (prev_page (MainWindow.shortcut_Home self)) = 0
  /\ nav_page (go_to_page n (go_to_page n self)) = nav_page (go_to_page n self).
Proof.
  unfold MainWindow.shortcut_Home, MainWindow.shortcut_End, next_page, prev_page,
    go_to_page, current_page, page_count. simpl.
  rewrite !clamp_int, !py_max_int. repeat split; lia.
Qed.

(** X6.  On a page before the last one, [next_page] moves one page
    forward, and [prev_page] after it comes back. *)
Theorem next_then_prev (self : t) :
  0 <= nav_page self < page_count self - 1 ->
  nav_page (next_page self) = nav_page self + 1
  /\ nav_page (prev_page (next_page self)) = nav_page self.
Proof.
  intros Hr. unfold next_page, prev_page, go_to_page, current_page, page_count in *.
  simpl. rewrite !clamp_int, !py_max_int. split; lia.
Qed.

End zoom_range.

Section bookmarks.
Import TocPanel.

(** What an activation does is the same whatever was emitted before. *)
Lemma _activated_outcome (idx : bookmark_index) :
  exists (r : result unit) (new : list (Z * QPointF * float)),
    (forall emitted, _activated idx emitted = (r, emitted ++ new))
    /\ (length new <= 1)%nat
    /\ Forall (fun jump => 0 <= jump.1.1) new
    /\ (r = Ok tt
        \/ exists e, data_Destination idx = Raise e /\ e <> AttributeError
                     /\ r = Raise e /\ new = []).
Proof.
  assert (Hpage : forall pg : json,
            exists new : list (Z * QPointF * float),
              (forall emitted,
                 match pg with
                 | JInt page =>
                     if 0 <=? page then emit page QPointF_origin 0%float else ret tt
                 | JBool b => emit (if b then 1 else 0) QPointF_origin 0%float
                 | _ => ret tt
                 end emitted = (Ok tt, emitted ++ new))
              /\ (length new <= 1)%nat
              /\ Forall (fun jump => 0 <= jump.1.1) new).
  { intros pg. destruct pg as [|b|n| | | |];
      try (exists []; split; [intros; now rewrite app_nil_r|];
           split; [simpl; lia | constructor]).
    - exists [(if b then 1 else 0, QPointF_origin, 0%float)].
      split; [reflexivity|]. split; [simpl; lia|].
      repeat constructor. simpl. destruct b; lia.
    - destruct (Z.leb_spec 0 n).
      + exists [(n, QPointF_origin, 0%float)].
        split; [reflexivity|]. split; [simpl; lia|]. repeat constructor. simpl. lia.
      + exists []. split; [intros; now rewrite app_nil_r|].
        split; [simpl; lia | constructor]. }
  destruct idx as [dest pg]. destruct (Hpage pg) as (newp & Hp & Hlen & Hall).
  assert (Hfallback :
            exists (r : result unit) (new : list (Z * QPointF * float)),
              (forall emitted,
                 match pg with
                 | JInt page =>
                     if 0 <=? page then emit page QPointF_origin 0%float else ret tt
                 | JBool b => emit (if b then 1 else 0) QPointF_origin 0%float
                 | _ => ret tt
                 end emitted = (r, emitted ++ new))
              /\ (length new <= 1)%nat
              /\ Forall (fun jump => 0 <= jump.1.1) new
              /\ r = Ok tt).
  { exists (Ok tt), newp. repeat split; assumption. }
  clear Hpage Hp Hlen Hall newp.
  destruct Hfallback as (r & new & Hf & Hlen & Hall & ->).
  destruct dest as [[d|]|e].
  - destruct d as [[p|ep] [l|el] [z|ez]];
      try (exists (Ok tt), new; split;
           [intros emitted; cbv [_activated bind try_except lift ret
                                 data_Destination data_Page page location zoom];
            apply Hf
           | split; [exact Hlen|]; split; [exact Hall|]; now left]).
    destruct (Z.leb_spec 0 p) as [Hp|Hp].
    + exists (Ok tt), [(p, l, z)]. split.
      * intros emitted.
        cbv [_activated bind try_except lift ret emit modify
             data_Destination data_Page page location zoom].
        destruct (Z.leb_spec 0 p); [reflexivity|lia].
      * split; [simpl; lia|]. split; [repeat constructor; simpl; lia|]. now left.
    + exists (Ok tt), new. split.
      * intros emitted.
        cbv [_activated bind try_except lift ret emit modify
             data_Destination data_Page page location zoom].
        destruct (Z.leb_spec 0 p); [lia|]. apply Hf.
      * split; [exact Hlen|]. split; [exact Hall|]. now left.
  - exists (Ok tt), new. split.
    + intros emitted.
      cbv [_activated bind try_except lift ret data_Destination data_Page]. apply Hf.
    + split; [exact Hlen|]. split; [exact Hall|]. now left.
  - destruct e;
      try (exists (Raise e), []; split;
           [intros emitted; rewrite app_nil_r; reflexivity
           | split; [simpl; lia|]; split; [constructor|];
             right; eexists; split; [reflexivity|]; split; [discriminate|];
             split; reflexivity]).
    all: try (eexists (Raise _), []; split;
           [intros emitted; rewrite app_nil_r; reflexivity
           | split; [simpl; lia|]; split; [constructor|];
             right; eexists; split; [reflexivity|]; split; [discriminate|];
             split; reflexivity]).
    exists (Ok tt), new. split.
    + intros emitted.
      cbv [_activated bind try_except lift ret data_Destination data_Page]. apply Hf.
    + split; [exact Hlen|]. split; [exact Hall|]. now left.
Qed.

(** X7.  Activating a bookmark emits at most one jump, never to a
    negative page, and raises only what asking for the Destination role
    raised other than [AttributeError]; the navigator is then on the page
    it was on or on a page that is not negative. *)
Theorem toc_activation_page (idx : bookmark_index)
    (emitted : list (Z * QPointF * float)) (center : CenterPdfView.t) :
  (exists new,
     (_activated idx emitted).2 = emitted ++ new
     /\ (length new <= 1)%nat
     /\ Forall (fun jump => 0 <= jump.1.1) new
     /\ ((_activated idx emitted).1 = Ok tt
         \/ exists e, data_Destination idx = Raise e /\ e <> AttributeError
                      /\ (_activated idx emitted).1 = Raise e /\ new = []))
  /\ (CenterPdfView.nav_page (MainWindow.toc_activated idx center).2
      = CenterPdfView.nav_page center
      \/ 0 <= CenterPdfView.nav_page (MainWindow.toc_activated idx center).2).
Proof.
  destruct (_activated_outcome idx) as (r & new & Hrun & Hlen & Hall & Hr).
  split.
  - exists new. rewrite Hrun. cbn [fst snd]. repeat split; assumption.
  - unfold MainWindow.toc_activated. rewrite (Hrun []). cbn [app snd].
    destruct new as [|[[p l] z] [|more]].
    + now left.
    + right. apply Forall_cons in Hall as [Hp _]. exact Hp.
    + simpl in Hlen. lia.
Qed.

End bookmarks.

(* ================================================================== *)
(** * More on the favorites *)

Section stripped_lines.

Lemma lstrip_head (s : string) :
  PyStr.lstrip s = EmptyString
  \/ exists c rest, PyStr.lstrip s = String c rest /\ PyStr.isspace c = false.
Proof.
  induction s as [|c s IH]; [now left|]. cbn [PyStr.lstrip].
  destruct (PyStr.isspace c) eqn:Hc; [exact IH|]. right. now exists c, s.
Qed.

Lemma rstrip_head (a : ascii) (s : string) :
  PyStr.isspace a = false ->
  exists rest, PyStr.rstrip (String a s) = String a rest.
Proof.
  intros Ha. cbn [PyStr.rstrip]. destruct (PyStr.rstrip s) as [|b r].
  - rewrite Ha. now exists EmptyString.
  - now exists (String b r).
Qed.

Lemma rstrip_rstrip (s : string) : PyStr.rstrip (PyStr.rstrip s) = PyStr.rstrip s.
Proof.
  induction s as [|c s IH]; [reflexivity|]. cbn [PyStr.rstrip].
  destruct (PyStr.rstrip s) as [|b r] eqn:Hr.
  - destruct (PyStr.isspace c) eqn:Hc; [reflexivity|].
    cbn [PyStr.rstrip]. now rewrite Hc.
  - cbn [PyStr.rstrip] in *. destruct (PyStr.rstrip r) as [|b' r'] eqn:Hr'.
    + destruct (PyStr.isspace b); [discriminate|]. now rewrite IH.
    + now rewrite IH.
Qed.

(** Stripping twice is stripping once. *)
Lemma strip_strip (s : string) : PyStr.strip (PyStr.strip s) = PyStr.strip s.
Proof.
  unfold PyStr.strip. destruct (lstrip_head s) as [->|(c & rest & -> & Hc)];
    [reflexivity|].
  destruct (rstrip_head c rest Hc) as [r Hr]. rewrite Hr.
  cbn [PyStr.lstrip]. rewrite Hc, <- Hr. apply rstrip_rstrip.
Qed.

Lemma one_line_lstrip (s : string) :
  Spec.one_line s = true -> Spec.one_line (PyStr.lstrip s) = true.
Proof.
  induction s as [|c s IH]; [reflexivity|]. intros Hs. cbn [PyStr.lstrip].
  destruct (PyStr.isspace c); [|exact Hs].
  cbn [Spec.one_line] in Hs. apply andb_true_iff in Hs as [_ Hs]. now apply IH.
Qed.

Lemma one_line_rstrip (s : string) :
  Spec.one_line s = true -> Spec.one_line (PyStr.rstrip s) = true.
Proof.
  induction s as [|c s IH]; [reflexivity|]. intros Hs.
  cbn [Spec.one_line] in Hs. apply andb_true_iff in Hs as [Hc Hs].
  specialize (IH Hs). cbn [PyStr.rstrip].
  destruct (PyStr.rstrip s) as [|b r].
  - destruct (PyStr.isspace c); [reflexivity|]. cbn [Spec.one_line]. now rewrite Hc.
  - cbn [Spec.one_line] in *. now rewrite Hc, IH.
Qed.

Lemma one_line_rev_app (a b : string) :
  Spec.one_line (String.rev_app a b) = Spec.one_line a && Spec.one_line b.
Proof.
  revert b. induction a as [|c a IH]; intros b; [reflexivity|].
  cbn [String.rev_app Spec.one_line]. rewrite IH. cbn [Spec.one_line].
  destruct (PyStr.is_linebreak c), (Spec.one_line a), (Spec.one_line b); reflexivity.
Qed.

(** No line that [splitlines] yields has a line boundary in it. *)
Lemma splitlines_go_one_line_each (s cur : string) :
  Spec.one_line cur = true ->
  Forall (fun line => Spec.one_line line = true) (PyStr.splitlines_go cur s).
Proof.
  assert (Hrev : forall c, Spec.one_line c = true -> Spec.one_line (String.rev c) = true).
  { intros c Hc. unfold String.rev. now rewrite one_line_rev_app, Hc. }
  remember (String.length s) as n eqn:Hn. revert s cur Hn.
  induction n as [n IH] using lt_wf_ind. intros s cur -> Hcur.
  destruct s as [|c s]; cbn [PyStr.splitlines_go].
  - destruct cur; [constructor|]. repeat constructor. now apply Hrev.
  - destruct (PyStr.is_linebreak c) eqn:Hc.
    + assert (Htail : forall t, (String.length t <= String.length s)%nat ->
                Forall (fun line => Spec.one_line line = true)
                  (String.rev cur :: PyStr.splitlines_go EmptyString t)).
      { intros t Ht. constructor; [now apply Hrev|].
        apply (IH (String.length t)); [simpl; lia|reflexivity|reflexivity]. }
      destruct c as [[] [] [] [] [] [] [] []]; try (apply Htail; lia).
      destruct s as [|c' s']; [apply Htail; simpl; lia|].
      destruct c' as [[] [] [] [] [] [] [] []]; try (apply Htail; simpl; lia).
    + apply (IH (String.length s)); [simpl; lia|reflexivity|].
      cbn [Spec.one_line]. now rewrite Hc, Hcur.
Qed.

End stripped_lines.

Section favorites_more.
Import FilesPanel.
Context `{Platform}.

Lemma lookup_insert_is_Some_keep (d : gmap string node) (p x : string) (v : node) :
  is_Some (d !! x) -> is_Some (<[p := v]> d !! x).
Proof.
  intros Hx. destruct (decide (p = x)) as [->|Hne].
  - rewrite lookup_insert_eq. eauto.
  - now rewrite lookup_insert_ne.
Qed.

Lemma favorites_of_text_kept (d : gmap string node) (text : string) :
  Forall (Spec.kept_favorite d) (Spec.favorites_of_text d text).
Proof.
  unfold Spec.favorites_of_text. apply Forall_forall. intros x Hx.
  apply list_elem_of_filter in Hx as [[Hne Hex] Hin].
  apply list_elem_of_fmap in Hin as (line & -> & Hline).
  split; [exact Hne|]. split; [|split; [apply strip_strip|exact Hex]].
  unfold PyStr.strip. apply one_line_rstrip, one_line_lstrip.
  pose proof (splitlines_go_one_line_each text EmptyString eq_refl) as Hall.
  rewrite Forall_forall in Hall. now apply Hall.
Qed.

(** Saving and loading gives back a list of favorites that are kept. *)
Lemma save_then_load (self : t) :
  disk self !! FAVORITES_FILE <> Some Dir ->
  Forall (Spec.kept_favorite (disk self)) (fav_list self) ->
  fav_list (_load_favorites (_save_favorites self).2).2 = fav_list self.
Proof.
  intros Hnd Hkept. rewrite (_save_favorites_ok self Hnd). cbn [snd].
  rewrite (_load_favorites_file _ (PyStr.join newline (fav_list self)))
    by (cbn; apply lookup_insert_eq).
  cbn [snd]. unfold Spec.favorites_of_text.
  rewrite splitlines_join.
  2:{ eapply Forall_impl; [exact Hkept|]. intros x (Hx & Hone & _). now split. }
  cbn [fav_list set_fav_list disk with_disk has_disk browser_root fileActivated warnings].
  apply filter_kept. rewrite Forall_forall in *. intros x Hin.
  destruct (Hkept x Hin) as (Hx & _ & Hstrip & Hex).
  split; [exact Hx|]. split; [exact Hstrip|].
  now apply lookup_insert_is_Some_keep.
Qed.

Lemma _load_favorites_result (self : t) :
  disk self !! FAVORITES_FILE <> Some Dir ->
  _load_favorites self
  = (Ok tt,
     set_fav_list
       (match disk self !! FAVORITES_FILE with
        | Some (File text) => Spec.favorites_of_text (disk self) text
        | _ => []
        end) self).
Proof.
  intros Hnd. destruct (disk self !! FAVORITES_FILE) as [[|text]|] eqn:Hf.
  - contradiction.
  - now apply _load_favorites_file.
  - now apply _load_favorites_absent.
Qed.


(** X8.  Loading the favorites does not touch the disk, and every item
    it lists is a non-empty path, without white space around it, that
    exists on disk; loading again changes nothing. *)
Theorem loaded_favorites_exist (self : t) :
  disk self !! FAVORITES_FILE <> Some Dir ->
  let loaded := (_load_favorites self).2 in
  disk loaded = disk self
  /\ browser_root loaded = browser_root self
  /\ Forall (fun x => x <> EmptyString /\ PyStr.strip x = x
                      /\ is_Some (disk self !! x)) (fav_list loaded)
  /\ _load_favorites loaded = (Ok tt, loaded).
Proof.
  intros Hnd. cbn zeta.
  rewrite (_load_favorites_result self Hnd). cbn [snd].
  split; [reflexivity|]. split; [reflexivity|]. split.
  - cbn [fav_list set_fav_list].
    destruct (disk self !! FAVORITES_FILE) as [[|text]|]; try constructor.
    eapply Forall_impl; [apply favorites_of_text_kept|].
    intros x (Hx & _ & Hs & Hex). now repeat split.
  - rewrite _load_favorites_result by exact Hnd. reflexivity.
Qed.

(** X9.  What was loaded survives being saved and loaded again: after a
    load, saving the list and loading it back yields the same list. *)
Theorem loaded_favorites_round_trip (self : t) :
  disk self !! FAVORITES_FILE <> Some Dir ->
  let loaded := (_load_favorites self).2 in
  fav_list (_load_favorites (_save_favorites loaded).2).2 = fav_list loaded.
Proof.
  intros Hnd. cbn zeta.
  rewrite (_load_favorites_result self Hnd). cbn [snd].
  apply save_then_load; [exact Hnd|]. cbn [fav_list set_fav_list disk].
  destruct (disk self !! FAVORITES_FILE) as [[|text]|]; try constructor.
  apply favorites_of_text_kept.
Qed.

Lemma _remove_selected_favorite_ok (row : Z) (self : t) :
  0 <= row ->
  disk self !! FAVORITES_FILE <> Some Dir ->
  _remove_selected_favorite row self
  = (Ok tt,
     with_disk
       (<[FAVORITES_FILE :=
            File (PyStr.join newline (delete (Z.to_nat row) (fav_list self)))]>
          (disk self))
       (set_fav_list (delete (Z.to_nat row) (fav_list self)) self)).
Proof.
  intros Hrow Hnd. unfold _remove_selected_favorite.
  destruct (Z.leb_spec 0 row) as [_|?]; [|lia].
  unfold bind, modify. rewrite _save_favorites_ok.
  - unfold takeItem. destruct (Z.ltb_spec row 0) as [?|_]; [lia|]. reflexivity.
  - unfold takeItem. destruct (Z.ltb_spec row 0) as [?|_]; [lia|]. exact Hnd.
Qed.


(** X11.  Removing the last row right after adding a new folder gives
    back the list there was, on the panel and in the file. *)
Theorem add_then_remove (folder : string) (self : t) :
  disk self !! FAVORITES_FILE <> Some Dir ->
  folder <> EmptyString ->
  folder ∉ fav_list self ->
  let added := (_add_favorite folder self).2 in
  let row := Z.of_nat (length (fav_list self)) in
  let removed := (_remove_selected_favorite row added).2 in
  fav_list removed = fav_list self
  /\ disk removed !! FAVORITES_FILE
     = Some (File (PyStr.join newline (fav_list self))).
Proof.
  intros Hnd Hne Hnin. cbn zeta.
  rewrite (add_favorite_new folder self Hne Hnin Hnd). cbn [snd].
  rewrite _remove_selected_favorite_ok.
  - cbn [snd fav_list set_fav_list with_disk has_disk addItem disk browser_root
         fileActivated warnings].
    rewrite Nat2Z.id.
    assert (Hdel : delete (length (fav_list self)) (fav_list self ++ [folder])
                   = fav_list self).
    { rewrite delete_middle. apply app_nil_r. }
    rewrite Hdel. split; [reflexivity|apply lookup_insert_eq].
  - lia.
  - cbn. rewrite lookup_insert_eq. discriminate.
Qed.

End favorites_more.

(* ================================================================== *)
(** * More on the browser root *)

Section root_more.
Import FilesPanel.
Context `{Platform}.


Lemma change_root_unwritable (rootChanged : string -> M t unit)
    (folder : string) (self : t) :
  Path.exists_ (disk self) folder = true ->
  disk self !! LAST_ROOT_FILE = Some Dir ->
  change_root rootChanged folder self
  = (Ok tt, warn IsADirectoryError (set_browser_root folder self)).
Proof.
  intros He Hd. unfold change_root, try_except.
  unfold bind at 1. rewrite (browser_setRootPath_ok _ _ He).
  unfold bind, _save_last_root, _last_root_path, write_text, Path.write_text.
  change (the_disk (set_browser_root folder self)) with (disk self).
  now rewrite Hd.
Qed.

(** Where the [try] block ends when the folder exists. *)
Lemma change_root_cases (folder : string) (self : t) :
  Path.exists_ (disk self) folder = true ->
  let after := (change_root MainWindow._persist_root folder self).2 in
  after = with_disk (<[LAST_ROOT_FILE := File folder]> (disk self))
            (set_browser_root folder self)
  \/ after = warn IsADirectoryError (set_browser_root folder self).
Proof.
  intros He. cbn zeta.
  destruct (disk self !! LAST_ROOT_FILE) as [[|text]|] eqn:Hd.
  - right. now rewrite (change_root_unwritable _ _ _ He Hd).
  - left. rewrite (change_root_ok _ _ He); [reflexivity|]. now rewrite Hd.
  - left. rewrite (change_root_ok _ _ He); [reflexivity|]. now rewrite Hd.
Qed.


(** X13.  When the last-root file cannot be written because a directory
    is in its place, activating an existing favorite still moves the
    browser there; the disk stays as it is, one warning is shown, and the
    slot connected to [rootChanged] is not run. *)
Theorem activate_favorite_unwritable (rootChanged : string -> M t unit)
    (folder : string) (self : t) :
  disk self !! LAST_ROOT_FILE = Some Dir ->
  is_Some (disk self !! folder) ->
  _activate_favorite rootChanged folder self
  = (Ok tt, warn IsADirectoryError (set_browser_root folder self)).
Proof.
  intros Hd Hex. apply exists_is_Some in Hex.
  unfold _activate_favorite, bind, path_exists, gets. cbn [the_disk has_disk].
  rewrite Hex. now apply change_root_unwritable.
Qed.

Lemma _add_favorite_cases (folder : string) (self : t) :
  (_add_favorite folder self).2 = self
  \/ (_add_favorite folder self).2 = (_save_favorites (addItem folder self)).2.
Proof.
  unfold _add_favorite. destruct (PyStr.truthy folder); [|now left].
  unfold bind, gets, modify.
  destruct (has_item folder (fav_list self)); [now left|]. right.
  now destruct (_save_favorites (addItem folder self)) as [[[]|e] s].
Qed.

Lemma _remove_selected_favorite_cases (row : Z) (self : t) :
  (_remove_selected_favorite row self).2 = self
  \/ (_remove_selected_favorite row self).2
     = (_save_favorites (takeItem row self)).2.
Proof.
  unfold _remove_selected_favorite. destruct (0 <=? row); [|now left].
  unfold bind, modify. right.
  now destruct (_save_favorites (takeItem row self)) as [[[]|e] s].
Qed.

(** X14.  The browser root keeps naming something that exists: if it
    does before activating a favorite, double-clicking an entry, adding
    or removing a favorite, it does afterwards. *)
Theorem browser_root_exists (path : string) (row : Z) (self : t) :
  is_Some (disk self !! browser_root self) ->
  let exists_after (after : t) := is_Some (disk after !! browser_root after) in
  exists_after (_activate_favorite MainWindow._persist_root path self).2
  /\ exists_after (_on_double_clicked MainWindow._persist_root path self).2
  /\ exists_after (_add_favorite path self).2
  /\ exists_after (_remove_selected_favorite row self).2.
Proof.
  intros Hroot. cbn zeta.
  assert (Hchange : forall folder,
            Path.exists_ (disk self) folder = true ->
            is_Some (disk (change_root MainWindow._persist_root folder self).2
                     !! browser_root (change_root MainWindow._persist_root folder self).2)).
  { intros folder He.
    destruct (change_root_cases folder self He) as [-> | ->]; cbn.
    - apply lookup_insert_is_Some_keep. now apply exists_is_Some.
    - now apply exists_is_Some. }
  assert (Hsave : forall s : t,
            is_Some (disk s !! browser_root s) ->
            is_Some (disk (_save_favorites s).2 !! browser_root (_save_favorites s).2)).
  { intros s Hs.
    assert (Hcases : (_save_favorites s).2 = s
                     \/ exists d', (_save_favorites s).2
                                   = with_disk (<[FAVORITES_FILE := d']> (disk s)) s).
    { unfold _save_favorites, _favorites_path, bind, gets, write_text,
        Path.write_text. cbn [the_disk has_disk].
      destruct (disk s !! FAVORITES_FILE) as [[|text]|]; cbn;
        [now left | right; eexists; reflexivity | right; eexists; reflexivity]. }
    destruct Hcases as [-> | [d' ->]]; [exact Hs|].
    cbn. now apply lookup_insert_is_Some_keep. }
  split; [|split; [|split]].
  - unfold _activate_favorite, bind, path_exists, gets. cbn [the_disk has_disk].
    destruct (Path.exists_ (disk self) path) eqn:He; [now apply Hchange|exact Hroot].
  - unfold _on_double_clicked, bind, path_exists, path_is_dir, gets.
    cbn [the_disk has_disk].
    destruct (PyStr.truthy path && PyStr.endswith (PyStr.lower path) ".pdf"
              && Path.exists_ (disk self) path); [exact Hroot|].
    destruct (Path.is_dir (disk self) path) eqn:Hd; [|exact Hroot].
    apply Hchange. now apply is_dir_exists.
  - destruct (_add_favorite_cases path self) as [-> | ->]; [exact Hroot|].
    apply (Hsave (addItem path self)). exact Hroot.
  - destruct (_remove_selected_favorite_cases row self) as [-> | ->]; [exact Hroot|].
    apply (Hsave (takeItem row self)).
    unfold takeItem. destruct (row <? 0); exact Hroot.
Qed.

(** X15.  A root the user moved to is the root of the next start: after
    activating an existing favorite whose path is non-empty, has no
    white space around it and no carriage return in it (so that it is
    read back as it was written), the start-up root computed from the
    disk is that path. *)
Theorem root_restored_at_next_start (folder : string) (self : t) :
  disk self !! LAST_ROOT_FILE <> Some Dir ->
  is_Some (disk self !! folder) ->
  folder <> EmptyString ->
  PyStr.strip folder = folder ->
  PyStr.universal_newlines folder = folder ->
  let after := (_activate_favorite MainWindow._persist_root folder self).2 in
  start_root (blank (disk after)) = (Ok folder, blank (disk after))
  /\ init_browser (blank (disk after))
     = (Ok tt, set_browser_root folder (blank (disk after))).
Proof.
  intros Hnd Hex Hne Hstrip Hread. cbn zeta.
  assert (He : Path.exists_ (disk self) folder = true) by now apply exists_is_Some.
  assert (Hafter : (_activate_favorite MainWindow._persist_root folder self).2
                   = with_disk (<[LAST_ROOT_FILE := File folder]> (disk self))
                       (set_browser_root folder self)).
  { unfold _activate_favorite, bind, path_exists, gets. cbn [the_disk has_disk].
    rewrite He. now rewrite (change_root_ok _ _ He Hnd). }
  rewrite Hafter. cbn [disk with_disk has_disk set_browser_root].
  set (d := <[LAST_ROOT_FILE := File folder]> (disk self)).
  assert (Hd : d !! LAST_ROOT_FILE = Some (File folder)) by apply lookup_insert_eq.
  assert (Hnd' : d !! LAST_ROOT_FILE <> Some Dir) by (rewrite Hd; discriminate).
  assert (Hex' : is_Some (d !! folder)) by now apply lookup_insert_is_Some_keep.
  assert (Hstart : Spec.startup_root d = folder).
  { unfold Spec.startup_root. rewrite Hd. cbn zeta. rewrite Hread, Hstrip.
    now rewrite bool_decide_true. }
  assert (Hs : start_root (blank d) = (Ok folder, blank d)).
  { rewrite (start_root_spec d Hnd'). now rewrite Hstart. }
  split; [exact Hs|].
  unfold init_browser, bind. rewrite Hs.
  unfold browser_init, bind, path_exists, gets.
  change (the_disk (blank d)) with d.
  apply exists_is_Some in Hex'. rewrite Hex'. cbn [negb].
  now apply browser_setRootPath_ok.
Qed.

(** X16.  A double click on an existing path whose name ends with ".pdf"
    in any letter case emits [fileActivated] for it once and changes
    neither the root nor the disk, also when the path is a directory; a
    double click on anything else emits nothing. *)
Theorem double_click_opens_pdf (path : string) (self : t) :
  let after := (_on_double_clicked MainWindow._persist_root path self).2 in
  let is_pdf :=
    PyStr.endswith (PyStr.lower path) ".pdf" = true /\ is_Some (disk self !! path) in
  (is_pdf -> after = emit_fileActivated path self)
  /\ (~ is_pdf -> fileActivated after = fileActivated self).
Proof.
  cbn zeta. unfold _on_double_clicked, bind, path_exists, path_is_dir, gets.
  cbn [the_disk has_disk]. split.
  - intros [Hpdf Hex]. apply exists_is_Some in Hex. rewrite Hpdf, Hex.
    assert (Ht : PyStr.truthy path = true).
    { destruct path; [discriminate Hpdf|reflexivity]. }
    now rewrite Ht.
  - intros Hno.
    destruct (PyStr.truthy path && PyStr.endswith (PyStr.lower path) ".pdf"
              && Path.exists_ (disk self) path) eqn:E.
    { exfalso. apply Hno. apply andb_true_iff in E as [E Hex].
      apply andb_true_iff in E as [_ Hpdf]. split; [exact Hpdf|].
      now apply exists_is_Some. }
    destruct (Path.is_dir (disk self) path) eqn:Hd; [|reflexivity].
    destruct (change_root_cases path self (is_dir_exists _ _ Hd)) as [-> | ->];
      reflexivity.
Qed.

(** X17.  When the home directory is not on disk and the last-root file
    gives no usable root, so that the browser would start at the home
    directory, building the browser raises [FileNotFoundError] and no
    root is set. *)
Theorem init_browser_nowhere (d : gmap string node) :
  d !! LAST_ROOT_FILE <> Some Dir ->
  d !! home = None ->
  Spec.startup_root d = home ->
  init_browser (blank d) = (Raise FileNotFoundError, blank d).
Proof.
  intros Hnd Hhome Hstart. unfold init_browser, bind.
  rewrite (start_root_spec d Hnd), Hstart.
  unfold browser_init, bind, path_exists, gets, Path.exists_.
  change (the_disk (blank d)) with d. now rewrite Hhome.
Qed.

End root_more.

(* ================================================================== *)
(** * More on the window state *)

Section window_more.
Import MainWindow.
Context `{Platform}.

Lemma _save_window_settings_unwritable (self : t) :
  disk self !! WINDOW_STATE_FILE = Some Dir ->
  _save_window_settings self
  = (Ok tt,
     print IsADirectoryError
       (if maximized self then showMaximized (showNormal self) else self)).
Proof.
  intros Hd. unfold _save_window_settings, try_except.
  unfold bind at 1, gets at 1, isMaximized.
  destruct self as [d [[[x y] w] h] mg m tr pr]. cbn [maximized disk] in *.
  destruct m; unfold bind, modify, gets, ret, write_text, Path.write_text; cbn;
    now rewrite Hd.
Qed.

(** X18.  Saving the window state never raises and leaves the window as
    it was, maximized or not, with the same normal geometry; when the file
    cannot be written the disk is unchanged and one failure is printed. *)
Theorem save_window_settings_safe (self : t) :
  let saved := (_save_window_settings self).2 in
  (_save_window_settings self).1 = Ok tt
  /\ maximized saved = maximized self
  /\ normal_geometry saved = normal_geometry self
  /\ maximized_geometry saved = maximized_geometry self
  /\ (disk self !! WINDOW_STATE_FILE = Some Dir ->
      disk saved = disk self
      /\ printed saved = printed self ++ [IsADirectoryError]).
Proof.
  cbn zeta. destruct (disk self !! WINDOW_STATE_FILE) as [[|text]|] eqn:Hf.
  - rewrite (_save_window_settings_unwritable self Hf).
    destruct (maximized self) eqn:Hm; cbn; rewrite ?Hm; repeat split; reflexivity.
  - rewrite (_save_window_settings_ok self) by (rewrite Hf; discriminate).
    destruct (maximized self) eqn:Hm; cbn; rewrite ?Hm;
      repeat split; try reflexivity; discriminate.
  - rewrite (_save_window_settings_ok self) by (rewrite Hf; discriminate).
    destruct (maximized self) eqn:Hm; cbn; rewrite ?Hm;
      repeat split; try reflexivity; discriminate.
Qed.

(** X19.  What the close event saves is what the next start restores:
    with a codec that reads back, from the text of the file as it is
    read, the record it wrote, and a geometry of C integers, a window
    that loads the state file left by [closeEvent] ends with the saved
    normal geometry and in the saved maximized state. *)
Theorem window_state_round_trip (self next : t) :
  disk self !! WINDOW_STATE_FILE <> Some Dir ->
  json_loads
    (PyStr.universal_newlines
       (json_dumps (Spec.window_record (normal_geometry self) (maximized self))))
  = Ok (Spec.window_record (normal_geometry self) (maximized self)) ->
  (let '(x, y, w, h) := normal_geometry self in
   Spec.int_range x /\ Spec.int_range y /\ Spec.int_range w /\ Spec.int_range h) ->
  disk next = disk (closeEvent self).2 ->
  let restored := (_load_window_settings next).2 in
  normal_geometry restored = normal_geometry self
  /\ maximized restored = maximized self.
Proof.
  intros Hnd Hcodec Hrange Hdisk. cbn zeta.
  assert (Hfile : disk next !! WINDOW_STATE_FILE
                  = Some (File (json_dumps
                            (Spec.window_record (normal_geometry self) (maximized self))))).
  { rewrite Hdisk. unfold closeEvent, bind.
    rewrite (_save_window_settings_ok self Hnd). unfold modify. cbn [snd].
    destruct (maximized self); cbn; apply lookup_insert_eq. }
  destruct (normal_geometry self) as [[[x y] w] h] eqn:Hg.
  destruct Hrange as (Hx & Hy & Hw & Hh).
  rewrite (_load_window_settings_geometry next _
             [("geometry", JList [JInt x; JInt y; JInt w; JInt h]);
              ("is_maximized", JBool (maximized self))] x y w h Hfile Hcodec);
    try assumption; try reflexivity.
  cbn [snd]. unfold Spec.show_as, Spec.flag_of. cbn.
  destruct (maximized self); split; reflexivity.
Qed.

End window_more.

Section window_twice.
Import MainWindow.
Context `{Platform}.

(** What the geometry step of [_load_window_settings] does with [geom]
    is one of three things, the same on every window: raise, skip, or set
    a geometry. *)
Lemma geometry_step (geom : json) :
  exists outcome : result (option (Z * Z * Z * Z)),
    forall self : t,
      ((if Json.truthy geom then
          let* n := lift (Json.len geom) in
          if n =? 4 then restore_geometry geom else ret tt
        else ret tt)%py self)
      = match outcome with
        | Raise e => (Raise e, self)
        | Ok None => (Ok tt, self)
        | Ok (Some g) => (Ok tt, Spec.with_geometry g self)
        end.
Proof.
  assert (Hset : forall x y w h : json,
            exists outcome : result (option (Z * Z * Z * Z)),
              forall self : t,
                setGeometry x y w h self
                = match outcome with
                  | Raise e => (Raise e, self)
                  | Ok None => (Ok tt, self)
                  | Ok (Some g) => (Ok tt, Spec.with_geometry g self)
                  end).
  { intros x y w h. unfold setGeometry, bind, lift, modify.
    destruct (QWidget.as_int x) as [x'|e]; [|now exists (Raise e)].
    destruct (QWidget.as_int y) as [y'|e]; [|now exists (Raise e)].
    destruct (QWidget.as_int w) as [w'|e]; [|now exists (Raise e)].
    destruct (QWidget.as_int h) as [h'|e]; [|now exists (Raise e)].
    now exists (Ok (Some (x', y', w', h'))). }
  destruct geom as [|b|n|f|s|items|fields]; cbn [Json.truthy].
  - now exists (Ok None).
  - destruct b; [now exists (Raise TypeError) | now exists (Ok None)].
  - destruct (n =? 0); [now exists (Ok None) | now exists (Raise TypeError)].
  - destruct (PrimFloat.eqb f PrimFloat.zero);
      [now exists (Ok None) | now exists (Raise TypeError)].
  - destruct s as [|a [|b [|c [|d [|e s]]]]];
      try (now exists (Ok None)).
    + destruct (Hset (JString (String a EmptyString)) (JString (String b EmptyString))
                  (JString (String c EmptyString)) (JString (String d EmptyString)))
        as [outcome Ho].
      exists outcome. intros self. rewrite <- Ho. reflexivity.
    + exists (Ok None). intros self. unfold bind, lift. cbn [PyStr.truthy Json.len].
      destruct (Z.eqb_spec (Z.of_nat (String.length
                  (String a (String b (String c (String d (String e s))))))) 4) as [E|_];
        [simpl in E; lia|reflexivity].
  - destruct items as [|a [|b [|c [|d [|e items]]]]];
      try (now exists (Ok None)).
    + destruct (Hset a b c d) as [outcome Ho].
      exists outcome. intros self. rewrite <- Ho. reflexivity.
    + exists (Ok None). intros self. unfold bind, lift. cbn [Json.len].
      destruct (Z.eqb_spec (Z.of_nat (length (a :: b :: c :: d :: e :: items))) 4)
        as [E|_]; [simpl in E; lia|reflexivity].
  - destruct fields as [|a [|b [|c [|d [|e fields]]]]];
      try (now exists (Ok None)).
    + destruct (Hset (JString a.1) (JString b.1) (JString c.1) (JString d.1))
        as [outcome Ho].
      exists outcome. intros self. rewrite <- Ho. reflexivity.
    + exists (Ok None). intros self. unfold bind, lift. cbn [Json.len].
      destruct (Z.eqb_spec (Z.of_nat (length (a :: b :: c :: d :: e :: fields))) 4)
        as [E|_]; [simpl in E; lia|reflexivity].
Qed.

(** Run [_load_window_settings] up to the parsed record. *)
Ltac run_to_record Hf Hparse :=
  unfold _load_window_settings;
  unfold bind at 1, path_exists, gets, Path.exists_;
  cbn [the_disk has_disk]; rewrite Hf; cbn [negb];
  unfold try_except; unfold bind at 1, read_text, Path.read_text;
  cbn [the_disk has_disk]; rewrite Hf;
  unfold bind at 1, lift at 1; rewrite Hparse.

(** What restoring does to a window depends on the disk alone: it may
    set a geometry, and it decides the maximized state. *)
Lemma _load_window_settings_by_disk (d : gmap string node) :
  exists (g : option (Z * Z * Z * Z)) (m : bool),
    forall self : t,
      disk self = d ->
      let after := (_load_window_settings self).2 in
      disk after = d
      /\ normal_geometry after = default (normal_geometry self) g
      /\ maximized_geometry after = maximized_geometry self
      /\ maximized after = m.
Proof.
  destruct (d !! WINDOW_STATE_FILE) as [[|text]|] eqn:Hf.
  - exists None, true. intros self <-. cbn zeta.
    now rewrite (_load_window_settings_dir self Hf).
  - destruct (json_loads (PyStr.universal_newlines text)) as [data|e] eqn:Hparse.
    2:{ exists None, true. intros self <-. cbn zeta.
        now rewrite (_load_window_settings_raise self text e Hf Hparse). }
    destruct data as [|b|n|f|s|items|fields];
      try (exists None, true; intros self <-; cbn zeta;
           rewrite (_load_window_settings_not_object self text _ Hf Hparse)
             by discriminate;
           now repeat split).
    destruct (geometry_step
                (match Json.assoc "geometry" fields with
                 | Some v => v | None => JNull end)) as [outcome Hstep].
    destruct outcome as [[g|]|e].
    + exists (Some g), (Spec.flag_of fields). intros self <-. cbn zeta.
      assert (Hrun : _load_window_settings self
                     = (Ok tt, Spec.show_as (Spec.flag_of fields)
                                 (Spec.with_geometry g self))).
      { run_to_record Hf Hparse.
        unfold bind at 1, lift at 1, Json.get. unfold bind at 1, lift at 1.
        unfold bind at 1. rewrite Hstep.
        unfold Spec.flag_of, Spec.show_as, modify.
        destruct (Json.assoc "is_maximized" fields) as [v|]; cbn [Json.truthy];
          [destruct (Json.truthy v)|]; reflexivity. }
      rewrite Hrun. cbn [snd]. unfold Spec.show_as.
      destruct g as [[[x y] w] h]. destruct (Spec.flag_of fields); now repeat split.
    + exists None, (Spec.flag_of fields). intros self <-. cbn zeta.
      assert (Hrun : _load_window_settings self
                     = (Ok tt, Spec.show_as (Spec.flag_of fields) self)).
      { run_to_record Hf Hparse.
        unfold bind at 1, lift at 1, Json.get. unfold bind at 1, lift at 1.
        unfold bind at 1. rewrite Hstep.
        unfold Spec.flag_of, Spec.show_as, modify.
        destruct (Json.assoc "is_maximized" fields) as [v|]; cbn [Json.truthy];
          [destruct (Json.truthy v)|]; reflexivity. }
      rewrite Hrun. cbn [snd]. unfold Spec.show_as.
      destruct (Spec.flag_of fields); now repeat split.
    + exists None, true. intros self <-. cbn zeta.
      assert (Hrun : _load_window_settings self
                     = (Ok tt, showMaximized (print e self))).
      { run_to_record Hf Hparse.
        unfold bind at 1, lift at 1, Json.get. unfold bind at 1, lift at 1.
        unfold bind at 1. rewrite Hstep. reflexivity. }
      rewrite Hrun. now repeat split.
  - exists None, true. intros self <-. cbn zeta.
    now rewrite (_load_window_settings_absent self Hf).
Qed.

(** X20.  The start-up restores the window state twice, once in the
    constructor and once from the timer.  The second run changes nothing
    but the log of calls: restoring never writes to the disk, and a
    window restored twice has the geometry and the maximized state of a
    window restored once. *)
Theorem load_window_settings_twice (self : t) :
  let once := (_load_window_settings self).2 in
  let twice := (_load_window_settings once).2 in
  disk once = disk self
  /\ disk twice = disk self
  /\ normal_geometry twice = normal_geometry once
  /\ maximized_geometry twice = maximized_geometry once
  /\ maximized twice = maximized once.
Proof.
  cbn zeta. destruct (_load_window_settings_by_disk (disk self)) as (g & m & Hrun).
  destruct (Hrun self eq_refl) as (Hd1 & Hg1 & Hmg1 & Hm1).
  destruct (Hrun _ Hd1) as (Hd2 & Hg2 & Hmg2 & Hm2).
  repeat split; try assumption.
  - rewrite Hg2, Hg1. now destruct g.
  - now rewrite Hm2, Hm1.
Qed.

End window_twice.

(* ================================================================== *)
(** * Opening a document *)

Section open_document.
Import MainWindow.
Context `{Platform}.

Lemma toolbar_after_total (n : Z) (tb : RightToolbar.t) :
  RightToolbar._page_total (RightToolbar.set_total_pages n tb) = Z.max 0 n
  /\ RightToolbar._current_page (RightToolbar.set_total_pages n tb)
     = RightToolbar._current_page tb.
Proof.
  unfold RightToolbar.set_total_pages, RightToolbar._update_label.
  cbn [RightToolbar._page_total RightToolbar._current_page].
  now rewrite py_max_int.
Qed.

Lemma toolbar_after_current (p : Z) (tb : RightToolbar.t) :
  RightToolbar._current_page (RightToolbar.set_current_page p tb) = Z.max 0 p
  /\ RightToolbar._page_total (RightToolbar.set_current_page p tb)
     = RightToolbar._page_total tb.
Proof.
  unfold RightToolbar.set_current_page, RightToolbar._update_label.
  cbn [RightToolbar._page_total RightToolbar._current_page].
  now rewrite py_max_int.
Qed.

Lemma load_file_trace_failure (file_path : string) (c : CenterPdfView.t) :
  negb (Status_eqb (QPdfDocument_load file_path).1 Ready)
  || ((QPdfDocument_load file_path).2 =? 0) = true ->
  (CenterPdfView.load_file file_path c).1 = false
  /\ drop (length (CenterPdfView.trace c))
          (CenterPdfView.trace (CenterPdfView.load_file file_path c).2)
     = [DocClose; OverlayClear; DocLoad file_path;
        OverlaySetText (CenterPdfView.not_readable (PyStr.basename file_path));
        StackSetCurrentIndex 1].
Proof.
  intros E. rewrite (load_file_failure _ _ E). split; [reflexivity|].
  unfold CenterPdfView.doc_load. destruct (QPdfDocument_load file_path) as [st n].
  cbn. rewrite <- !app_assoc. cbn. apply drop_app_length.
Qed.

Lemma load_file_trace_success (file_path : string) (c : CenterPdfView.t) :
  negb (Status_eqb (QPdfDocument_load file_path).1 Ready)
  || ((QPdfDocument_load file_path).2 =? 0) = false ->
  (CenterPdfView.load_file file_path c).1 = true
  /\ CenterPdfView.nav_page (CenterPdfView.load_file file_path c).2 = 0
  /\ CenterPdfView.doc_pageCount (CenterPdfView.load_file file_path c).2
     = (QPdfDocument_load file_path).2
  /\ drop (length (CenterPdfView.trace c))
          (CenterPdfView.trace (CenterPdfView.load_file file_path c).2)
     = [DocClose; OverlayClear; DocLoad file_path; StackSetCurrentIndex 0;
        NavJump 0; EmitDocumentLoaded; EmitPageChanged 0].
Proof.
  intros E. rewrite (load_file_success _ _ E). split; [reflexivity|].
  unfold CenterPdfView.doc_load. destruct (QPdfDocument_load file_path) as [st n].
  cbn. repeat split. rewrite <- !app_assoc. cbn. apply drop_app_length.
Qed.

(** X21.  [open_pdf] without a path and with the dialog cancelled changes
    nothing.  Otherwise the centre view is what [load_file] leaves, and
    the toolbar and the TOC tab agree with it: after a load that
    succeeded the toolbar holds the page count and page 0, and the tab is
    green exactly when the document has bookmarks; after a load that
    failed the toolbar holds no pages and the tab is grey. *)
Theorem open_pdf_syncs_toolbar (dialog path : string) (bookmark_rows : Z) (u : ui) :
  let chosen := if PyStr.truthy path then path else dialog in
  let opened := open_pdf dialog bookmark_rows path u in
  let loaded := CenterPdfView.load_file chosen (center u) in
  (chosen = EmptyString /\ opened = u)
  \/ (chosen <> EmptyString
      /\ center opened = loaded.2
      /\ RightToolbar._page_total (tools opened)
         = (if loaded.1 then Z.max 0 (CenterPdfView.page_count loaded.2) else 0)
      /\ RightToolbar._current_page (tools opened)
         = (if loaded.1 then 0 else RightToolbar._current_page (tools u))
      /\ toc_tab_color opened
         = (if loaded.1 && (0 <? bookmark_rows) then "#2e7d32" else "#777777")).
Proof.
  cbn zeta. unfold open_pdf.
  set (chosen := if PyStr.truthy path then path else dialog).
  destruct (PyStr.truthy chosen) eqn:Ht.
  2:{ left. split; [|reflexivity]. now destruct chosen. }
  right. split; [now apply truthy_spec|]. cbn [negb].
  destruct (negb (Status_eqb (QPdfDocument_load chosen).1 Ready)
            || ((QPdfDocument_load chosen).2 =? 0)) eqn:E.
  - destruct (load_file_trace_failure chosen (center u) E) as [Hok Htr].
    destruct (CenterPdfView.load_file chosen (center u)) as [ok c].
    cbn [fst snd] in *. subst ok. rewrite Htr.
    cbn [fold_left deliver]. unfold _update_toc_tab_color.
    cbn [center tools toc_tab_color andb].
    destruct (toolbar_after_total 0 (tools u)) as [Ht0 Hc0].
    rewrite Ht0, Hc0. now repeat split.
  - destruct (load_file_trace_success chosen (center u) E) as (Hok & Hnav & Hpc & Htr).
    destruct (CenterPdfView.load_file chosen (center u)) as [ok c].
    cbn [fst snd] in *. subst ok. rewrite Htr.
    cbn [fold_left deliver]. unfold _after_document_loaded, _sync_current_page,
      _sync_total_pages, _update_toc_tab_color.
    cbn [center tools toc_tab_color andb].
    unfold CenterPdfView.current_page, CenterPdfView.page_count. rewrite Hnav.
    split; [reflexivity|].
    repeat match goal with
           | |- context [RightToolbar._page_total (RightToolbar.set_total_pages ?n ?t)] =>
               rewrite (proj1 (toolbar_after_total n t))
           | |- context [RightToolbar._current_page (RightToolbar.set_total_pages ?n ?t)] =>
               rewrite (proj2 (toolbar_after_total n t))
           | |- context [RightToolbar._current_page (RightToolbar.set_current_page ?n ?t)] =>
               rewrite (proj1 (toolbar_after_current n t))
           | |- context [RightToolbar._page_total (RightToolbar.set_current_page ?n ?t)] =>
               rewrite (proj2 (toolbar_after_current n t))
           end.
    repeat split; try now destruct (0 <? bookmark_rows).
Qed.

End open_document.

(* ================================================================== *)
(** * [tidy.py]: favorites and the context menu *)

Section tidy_more.
Import Tidy.

Lemma tidy_load_loop (rows : list string) (self : MainWindow.t) :
  for_each rows (fun row => modify (MainWindow.addItem row)) self
  = (Ok tt, MainWindow.mk (MainWindow.disk self) (MainWindow.favorites self ++ rows)).
Proof.
  revert self. induction rows as [|row rows IH]; intros self.
  - cbn. unfold ret. rewrite app_nil_r. now destruct self.
  - cbn [for_each]. unfold bind, modify. rewrite IH. cbn.
    now rewrite <- app_assoc.
Qed.

(** X22.  [tidy.py] lists every line of the favorites file as it is,
    after the items already there, without stripping it or checking that
    it exists; activating an item whose folder is not on disk raises
    [FileNotFoundError] and leaves the explorer where it was. *)
Theorem tidy_favorites_unchecked (self : MainWindow.t) (text : string) :
  MainWindow.disk self !! "favorites.txt" = Some (File text) ->
  MainWindow._loadFavorites self
  = (Ok tt,
     MainWindow.mk (MainWindow.disk self)
       (MainWindow.favorites self ++ PyStr.splitlines text))
  /\ forall (explorer : PdfExplorerWidget.t) (line : string),
       line ∈ PyStr.splitlines text ->
       PdfExplorerWidget.disk explorer !! line = None ->
       MainWindow.on_favorites_itemActivated line explorer
       = (Raise FileNotFoundError, explorer).
Proof.
  intros Hf. split.
  - unfold MainWindow._loadFavorites, bind, read_text, Path.read_text.
    cbn [the_disk MainWindow.has_disk]. rewrite Hf.
    rewrite <- (splitlines_universal_newlines text). apply tidy_load_loop.
  - intros explorer line _ Hno.
    unfold MainWindow.on_favorites_itemActivated, PdfExplorerWidget.setRootPath,
      bind, path_exists, gets, Path.exists_.
    cbn [the_disk PdfExplorerWidget.has_disk]. now rewrite Hno.
Qed.

Import PdfExplorerWidget.

Lemma delete_loop (file_paths : list string) (self : t) :
  NoDup file_paths ->
  Forall (fun p => exists text, disk self !! p = Some (File text)) file_paths ->
  exists after,
    _deleteFile false file_paths self = (Ok tt, after)
    /\ locked after = locked self
    /\ root after = root self
    /\ (forall q, disk after !! q
                  = if bool_decide (q ∈ file_paths /\ q ∉ locked self)
                    then None else disk self !! q)
    /\ warnings after
       = warnings self ++ filter (fun p => p ∈ locked self) file_paths.
Proof.
  unfold _deleteFile. revert self.
  induction file_paths as [|p rest IH]; intros self Hnd Hfiles.
  - exists self. cbn [for_each]. unfold ret.
    split; [reflexivity|]. split; [reflexivity|]. split; [reflexivity|]. split.
    + intros q. rewrite bool_decide_false; [reflexivity|].
      intros [Hq _]. inversion Hq.
    + cbn. now rewrite app_nil_r.
  - apply NoDup_cons in Hnd as [Hp Hnd].
    apply Forall_cons in Hfiles as [[text Hfile] Hfiles].
    cbn [for_each]. unfold bind at 1, unlink. rewrite Hfile.
    case_bool_decide as Hlock.
    + destruct (IH (warn p self) Hnd Hfiles)
        as (after & Hrun & Hl & Hr & Hdisk & Hw).
      exists after. split; [exact Hrun|]. split; [exact Hl|]. split; [exact Hr|].
      split.
      * intros q. rewrite Hdisk. cbn [disk locked warn].
        apply (f_equal (fun b : bool => if b then None else disk self !! q)).
        apply bool_decide_ext. rewrite elem_of_cons. split.
        -- intros [Hq Hnl]. split; [now right | exact Hnl].
        -- intros [[-> | Hq] Hnl]; [contradiction | now split].
      * rewrite Hw. cbn [warnings locked warn].
        rewrite filter_cons, decide_True by exact Hlock.
        now rewrite <- app_assoc.
    + assert (Hfiles' : Forall (fun p0 => exists text0,
                          disk (with_disk (delete p (disk self)) self) !! p0
                          = Some (File text0)) rest).
      { rewrite Forall_forall in *. intros x Hx. destruct (Hfiles x Hx) as [tx Htx].
        exists tx. cbn [disk with_disk has_disk].
        rewrite lookup_delete_ne; [exact Htx|]. intros ->. contradiction. }
      destruct (IH (with_disk (delete p (disk self)) self) Hnd Hfiles')
        as (after & Hrun & Hl & Hr & Hdisk & Hw).
      exists after. split; [exact Hrun|]. split; [exact Hl|]. split; [exact Hr|].
      split.
      * intros q. rewrite Hdisk. cbn [disk locked with_disk has_disk].
        destruct (decide (q = p)) as [->|Hne].
        -- rewrite lookup_delete_eq.
           rewrite (bool_decide_true (p ∈ p :: rest /\ p ∉ locked self)).
           ++ now case_bool_decide.
           ++ split; [apply list_elem_of_here|exact Hlock].
        -- rewrite lookup_delete_ne by congruence.
           apply (f_equal (fun b : bool => if b then None else disk self !! q)).
           apply bool_decide_ext. rewrite elem_of_cons. split.
           ++ intros [Hq Hnl]. split; [now right | exact Hnl].
           ++ intros [[-> | Hq] Hnl]; [contradiction | now split].
      * rewrite Hw. cbn [warnings locked with_disk has_disk].
        now rewrite filter_cons, decide_False by exact Hlock.
Qed.

(** X23.  A confirmed delete of distinct files removes exactly those of
    them that are not locked, warns once for each locked one, in order,
    and goes on with the rest; every other path stays as it is. *)
Theorem deleteFile_removes_files (file_paths : list string) (self : t) :
  NoDup file_paths ->
  Forall (fun p => exists text, disk self !! p = Some (File text)) file_paths ->
  let after := (_deleteFile false file_paths self).2 in
  (_deleteFile false file_paths self).1 = Ok tt
  /\ (forall q, q ∈ file_paths -> q ∉ locked self -> disk after !! q = None)
  /\ (forall q, q ∈ file_paths -> q ∈ locked self -> disk after !! q = disk self !! q)
  /\ (forall q, q ∉ file_paths -> disk after !! q = disk self !! q)
  /\ warnings after
     = warnings self ++ filter (fun p => p ∈ locked self) file_paths
  /\ root after = root self.
Proof.
  intros Hnd Hfiles. cbn zeta.
  destruct (delete_loop file_paths self Hnd Hfiles)
    as (after & Hrun & _ & Hr & Hdisk & Hw).
  rewrite Hrun. cbn [fst snd]. split; [reflexivity|].
  split; [|split; [|split; [|split; [exact Hw|exact Hr]]]].
  - intros q Hq Hnl. rewrite Hdisk. now rewrite bool_decide_true.
  - intros q Hq Hl. rewrite Hdisk. rewrite bool_decide_false; [reflexivity|].
    intros [_ ?]. contradiction.
  - intros q Hq. rewrite Hdisk. rewrite bool_decide_false; [reflexivity|].
    intros [? _]. contradiction.
Qed.

Lemma delete_keeps_directory (file_paths : list string) (self : t) (q : string) :
  disk self !! q = Some Dir ->
  disk (for_each file_paths (fun file_path => fun self =>
          match unlink (locked self) (disk self) file_path with
          | Unlinked d => (Ok tt, with_disk d self)
          | PermissionDenied => (Ok tt, warn file_path self)
          | Failed e => (Raise e, self)
          end) self).2 !! q = Some Dir.
Proof.
  revert self. induction file_paths as [|p rest IH]; intros self Hq; [exact Hq|].
  cbn [for_each]. unfold bind at 1, unlink.
  destruct (disk self !! p) as [[|text]|] eqn:Hp; try exact Hq.
  case_bool_decide.
  - apply IH. exact Hq.
  - apply IH. cbn [disk with_disk has_disk].
    rewrite lookup_delete_ne; [exact Hq|]. intros ->. congruence.
Qed.

(** X24.  The context menu never touches a directory: the paths its
    actions carry are selected paths that are not directories, it is
    empty when nothing but directories is selected, and a delete, whatever
    paths it is given and however it ends, leaves every directory in
    place. *)
Theorem context_menu_spares_directories (valid declined : bool)
    (selection file_paths : list string) (self : t) :
  Forall (fun p => p ∈ selection /\ Path.is_dir (disk self) p = false)
         (selected_files selection self)
  /\ (forall action,
        action ∈ on_customContextMenuRequested valid selection self ->
        match action with
        | OpenInSystemViewer p | RevealInExplorer p | Rename p =>
            selected_files selection self = [p]
        | Copy ps | Delete ps => ps = selected_files selection self /\ ps <> []
        end)
  /\ (Forall (fun p => Path.is_dir (disk self) p = true) selection ->
      on_customContextMenuRequested valid selection self = [])
  /\ (forall q, disk self !! q = Some Dir ->
                disk (_deleteFile declined file_paths self).2 !! q = Some Dir).
Proof.
  split; [|split; [|split]].
  - unfold selected_files. apply Forall_forall. intros p Hp.
    apply list_elem_of_In, filter_In in Hp as [Hin Hd].
    split; [now apply list_elem_of_In | now apply negb_true_iff].
  - intros action. unfold on_customContextMenuRequested.
    destruct valid; cbn [negb]; [|intros Hin; inversion Hin].
    destruct (selected_files selection self) as [|p [|p' more]].
    + intros Hin. inversion Hin.
    + cbn. rewrite !elem_of_cons.
      intros [->|[->|[->|[->|[->|Hin]]]]]; try reflexivity;
        try (split; [reflexivity|discriminate]). inversion Hin.
    + cbn. rewrite !elem_of_cons.
      intros [->|[->|Hin]]; try (split; [reflexivity|discriminate]). inversion Hin.
  - intros Hdirs. unfold on_customContextMenuRequested.
    destruct valid; cbn [negb]; [|reflexivity].
    assert (Hnone : selected_files selection self = []).
    { unfold selected_files. induction selection as [|p rest IH]; [reflexivity|].
      apply Forall_cons in Hdirs as [Hp Hrest]. cbn [List.filter].
      rewrite Hp. cbn [negb]. now apply IH. }
    now rewrite Hnone.
  - intros q Hq. unfold _deleteFile. destruct declined; [exact Hq|].
    now apply delete_keeps_directory.
Qed.

End tidy_more.

(* ================================================================== *)
(** * The further theorems at work on the sample platform *)

Section more_on_sample.
Local Existing Instance Sample.platform.

Lemma lessThan_strict_order_witness :
  (forall a, Sample.by_name_length a a = false)
  /\ PdfFilterProxyModel.lessThan Sample.by_name_length
       (Some (Entry "documents" true [])) (Some (Entry "a.pdf" false [])) = true
  /\ PdfFilterProxyModel.lessThan Sample.by_name_length
       (Some (Entry "a.pdf" false [])) (Some (Entry "documents" true [])) = false.
Proof.
  assert (Hirr : forall a, Sample.by_name_length a a = false)
    by (intros a; apply Nat.ltb_irrefl).
  assert (Htrans : forall a b c,
            Sample.by_name_length a b = true -> Sample.by_name_length b c = true ->
            Sample.by_name_length a c = true).
  { unfold Sample.by_name_length. intros a b c Hab Hbc.
    apply Nat.ltb_lt in Hab, Hbc. apply Nat.ltb_lt. lia. }
  split; [exact Hirr|].
  destruct (lessThan_strict_order Sample.by_name_length Hirr Htrans)
    as (_ & _ & _ & Hdirs).
  apply Hdirs; reflexivity.
Defined.

Lemma filter_accepts_any_case_witness :
  QFileSystemModel.index [Entry "Report.PDF" false []] 0 None
  = Some (Entry ("Report" +:+ ".PDF") false [])
  /\ PyStr.lower ".PDF" = ".pdf"
  /\ PdfFilterProxyModel.filterAcceptsRow [Entry "Report.PDF" false []] 0 None = true.
Proof.
  split; [reflexivity|]. split; [reflexivity|].
  apply (filter_accepts_any_case _ 0 None "Report" ".PDF" []); reflexivity.
Defined.

Lemma next_then_prev_witness :
  (0 <= CenterPdfView.nav_page Sample.center_loaded
     < CenterPdfView.page_count Sample.center_loaded - 1)
  /\ CenterPdfView.nav_page (CenterPdfView.next_page Sample.center_loaded) = 1
  /\ CenterPdfView.nav_page
       (CenterPdfView.prev_page (CenterPdfView.next_page Sample.center_loaded)) = 0.
Proof.
  assert (Hr : 0 <= CenterPdfView.nav_page Sample.center_loaded
               < CenterPdfView.page_count Sample.center_loaded - 1)
    by (vm_compute; split; [discriminate|reflexivity]).
  split; [exact Hr|]. exact (next_then_prev Sample.center_loaded Hr).
Defined.

Lemma loaded_favorites_exist_witness :
  FilesPanel.disk Sample.panel !! FAVORITES_FILE <> Some Dir
  /\ Forall (fun x => x <> EmptyString /\ PyStr.strip x = x
                      /\ is_Some (FilesPanel.disk Sample.panel !! x))
       (FilesPanel.fav_list (FilesPanel._load_favorites Sample.panel).2).
Proof.
  assert (Hnd : FilesPanel.disk Sample.panel !! FAVORITES_FILE <> Some Dir)
    by (vm_compute; discriminate).
  split; [exact Hnd|].
  destruct (loaded_favorites_exist Sample.panel Hnd) as (_ & _ & Hall & _).
  exact Hall.
Defined.

Lemma loaded_favorites_round_trip_witness :
  FilesPanel.disk Sample.panel !! FAVORITES_FILE <> Some Dir
  /\ FilesPanel.fav_list
       (FilesPanel._load_favorites
          (FilesPanel._save_favorites (FilesPanel._load_favorites Sample.panel).2).2).2
     = ["/home/user/books"; "/home/user/docs"].
Proof.
  assert (Hnd : FilesPanel.disk Sample.panel !! FAVORITES_FILE <> Some Dir)
    by (vm_compute; discriminate).
  split; [exact Hnd|].
  rewrite (loaded_favorites_round_trip Sample.panel Hnd). vm_compute. reflexivity.
Defined.


Lemma add_then_remove_witness :
  FilesPanel.disk Sample.panel !! FAVORITES_FILE <> Some Dir
  /\ "/home/user/docs" <> EmptyString
  /\ ("/home/user/docs" ∉ FilesPanel.fav_list Sample.panel)
  /\ FilesPanel.fav_list
       (FilesPanel._remove_selected_favorite 1
          (FilesPanel._add_favorite "/home/user/docs" Sample.panel).2).2
     = ["/home/user/books"].
Proof.
  assert (Hnd : FilesPanel.disk Sample.panel !! FAVORITES_FILE <> Some Dir)
    by (vm_compute; discriminate).
  assert (Hne : "/home/user/docs" <> EmptyString) by discriminate.
  assert (Hnin : "/home/user/docs" ∉ FilesPanel.fav_list Sample.panel).
  { simpl. intros Hin. apply list_elem_of_singleton in Hin. discriminate. }
  split; [exact Hnd|]. split; [exact Hne|]. split; [exact Hnin|].
  destruct (add_then_remove "/home/user/docs" Sample.panel Hnd Hne Hnin) as [Hl _].
  exact Hl.
Defined.

Lemma activate_favorite_unwritable_witness :
  FilesPanel.disk Sample.panel_blocked !! LAST_ROOT_FILE = Some Dir
  /\ is_Some (FilesPanel.disk Sample.panel_blocked !! "/home/user/books")
  /\ FilesPanel._activate_favorite MainWindow._persist_root "/home/user/books"
       Sample.panel_blocked
     = (Ok tt,
        FilesPanel.warn IsADirectoryError
          (FilesPanel.set_browser_root "/home/user/books" Sample.panel_blocked)).
Proof.
  assert (Hd : FilesPanel.disk Sample.panel_blocked !! LAST_ROOT_FILE = Some Dir)
    by reflexivity.
  assert (Hex : is_Some (FilesPanel.disk Sample.panel_blocked !! "/home/user/books"))
    by (vm_compute; eexists; reflexivity).
  split; [exact Hd|]. split; [exact Hex|].
  apply (activate_favorite_unwritable _ _ _ Hd Hex).
Defined.

Lemma browser_root_exists_witness :
  is_Some (FilesPanel.disk Sample.panel !! FilesPanel.browser_root Sample.panel)
  /\ is_Some
       (FilesPanel.disk
          (FilesPanel._activate_favorite MainWindow._persist_root "/home/user/books"
             Sample.panel).2
        !! FilesPanel.browser_root
             (FilesPanel._activate_favorite MainWindow._persist_root "/home/user/books"
                Sample.panel).2).
Proof.
  assert (Hroot : is_Some (FilesPanel.disk Sample.panel
                           !! FilesPanel.browser_root Sample.panel))
    by (vm_compute; eexists; reflexivity).
  split; [exact Hroot|].
  destruct (browser_root_exists "/home/user/books" 0 Sample.panel Hroot) as [Ha _].
  exact Ha.
Defined.

Lemma root_restored_at_next_start_witness :
  FilesPanel.disk Sample.panel !! LAST_ROOT_FILE <> Some Dir
  /\ is_Some (FilesPanel.disk Sample.panel !! "/home/user/books")
  /\ PyStr.strip "/home/user/books" = "/home/user/books"
  /\ PyStr.universal_newlines "/home/user/books" = "/home/user/books"
  /\ (FilesPanel.start_root
        (FilesPanel.blank
           (FilesPanel.disk
              (FilesPanel._activate_favorite MainWindow._persist_root
                 "/home/user/books" Sample.panel).2))).1
     = Ok "/home/user/books".
Proof.
  assert (Hnd : FilesPanel.disk Sample.panel !! LAST_ROOT_FILE <> Some Dir)
    by (vm_compute; discriminate).
  assert (Hex : is_Some (FilesPanel.disk Sample.panel !! "/home/user/books"))
    by (vm_compute; eexists; reflexivity).
  assert (Hne : "/home/user/books" <> EmptyString) by discriminate.
  assert (Hs : PyStr.strip "/home/user/books" = "/home/user/books") by reflexivity.
  assert (Hr : PyStr.universal_newlines "/home/user/books" = "/home/user/books")
    by reflexivity.
  split; [exact Hnd|]. split; [exact Hex|]. split; [exact Hs|]. split; [exact Hr|].
  destruct (root_restored_at_next_start "/home/user/books" Sample.panel
              Hnd Hex Hne Hs Hr) as [Hstart _].
  now rewrite Hstart.
Defined.

Lemma init_browser_nowhere_witness :
  (∅ : gmap string node) !! LAST_ROOT_FILE <> Some Dir
  /\ (∅ : gmap string node) !! home = None
  /\ Spec.startup_root ∅ = home
  /\ FilesPanel.init_browser (FilesPanel.blank ∅)
     = (Raise FileNotFoundError, FilesPanel.blank ∅).
Proof.
  assert (Hnd : (∅ : gmap string node) !! LAST_ROOT_FILE <> Some Dir)
    by (rewrite lookup_empty; discriminate).
  assert (Hhome : (∅ : gmap string node) !! home = None) by apply lookup_empty.
  assert (Hstart : Spec.startup_root ∅ = home) by reflexivity.
  split; [exact Hnd|]. split; [exact Hhome|]. split; [exact Hstart|].
  apply (init_browser_nowhere ∅ Hnd Hhome Hstart).
Defined.

Lemma window_state_round_trip_witness :
  MainWindow.disk Sample.window_maximized !! WINDOW_STATE_FILE <> Some Dir
  /\ json_loads
       (PyStr.universal_newlines
          (json_dumps (Spec.window_record (10, 20, 1280, 800) true)))
     = Ok (Spec.window_record (10, 20, 1280, 800) true)
  /\ MainWindow.normal_geometry
       (MainWindow._load_window_settings
          (Sample.window
             (MainWindow.disk (MainWindow.closeEvent Sample.window_maximized).2))).2
     = (10, 20, 1280, 800)
  /\ MainWindow.maximized
       (MainWindow._load_window_settings
          (Sample.window
             (MainWindow.disk (MainWindow.closeEvent Sample.window_maximized).2))).2
     = true.
Proof.
  assert (Hnd : MainWindow.disk Sample.window_maximized !! WINDOW_STATE_FILE
                <> Some Dir) by (vm_compute; discriminate).
  assert (Hcodec : json_loads
                     (PyStr.universal_newlines
                        (json_dumps (Spec.window_record (10, 20, 1280, 800) true)))
                   = Ok (Spec.window_record (10, 20, 1280, 800) true))
    by reflexivity.
  split; [exact Hnd|]. split; [exact Hcodec|].
  apply (window_state_round_trip Sample.window_maximized
           (Sample.window
              (MainWindow.disk (MainWindow.closeEvent Sample.window_maximized).2))
           Hnd Hcodec).
  - unfold Spec.int_range. cbn. lia.
  - reflexivity.
Defined.

Lemma tidy_favorites_unchecked_witness :
  Tidy.MainWindow.disk Sample.tidy_window !! "favorites.txt"
  = Some (File ("C:/books" +:+ newline +:+ "C:/gone"))
  /\ Tidy.MainWindow.favorites (Tidy.MainWindow._loadFavorites Sample.tidy_window).2
     = ["C:/books"; "C:/gone"]
  /\ Tidy.MainWindow.on_favorites_itemActivated "C:/gone" Sample.tidy_explorer
     = (Raise FileNotFoundError, Sample.tidy_explorer).
Proof.
  assert (Hf : Tidy.MainWindow.disk Sample.tidy_window !! "favorites.txt"
               = Some (File ("C:/books" +:+ newline +:+ "C:/gone")))
    by reflexivity.
  split; [exact Hf|].
  destruct (tidy_favorites_unchecked Sample.tidy_window _ Hf) as [Hload Hact].
  split; [now rewrite Hload|].
  apply Hact; [|reflexivity].
  vm_compute. apply list_elem_of_further, list_elem_of_here.
Defined.

Lemma deleteFile_removes_files_witness :
  NoDup ["C:/books/a.pdf"; "C:/books/b.pdf"]
  /\ Tidy.PdfExplorerWidget.disk
       (Tidy.PdfExplorerWidget._deleteFile false
          ["C:/books/a.pdf"; "C:/books/b.pdf"] Sample.tidy_explorer).2
     !! "C:/books/a.pdf" = None
  /\ Tidy.PdfExplorerWidget.warnings
       (Tidy.PdfExplorerWidget._deleteFile false
          ["C:/books/a.pdf"; "C:/books/b.pdf"] Sample.tidy_explorer).2
     = ["C:/books/b.pdf"].
Proof.
  assert (Hnd : NoDup ["C:/books/a.pdf"; "C:/books/b.pdf"]).
  { apply NoDup_cons. split.
    - intros Hin. apply list_elem_of_singleton in Hin. discriminate.
    - apply NoDup_singleton. }
  assert (Hfiles : Forall (fun p => exists text,
                     Tidy.PdfExplorerWidget.disk Sample.tidy_explorer !! p
                     = Some (File text)) ["C:/books/a.pdf"; "C:/books/b.pdf"]).
  { repeat constructor; eexists; reflexivity. }
  split; [exact Hnd|].
  destruct (deleteFile_removes_files _ Sample.tidy_explorer Hnd Hfiles)
    as (_ & Hgone & _ & _ & Hw & _).
  split.
  - apply Hgone; [apply list_elem_of_here|]. vm_compute. discriminate.
  - rewrite Hw. vm_compute. reflexivity.
Defined.

End more_on_sample.
